(** * c9845/templates: a verification development

    A shallow embedding of the Go package [templates] (configuration,
    validation, file discovery, group building, rendering, and the template
    helper functions), followed by the properties proved about it.

    Go strings are byte strings: they are modelled by [string], whose
    characters are the bytes.  The registry [map[string]*template.Template]
    is a [gmap string Template].  Everything the package obtains from its
    host (the file system, [path/filepath], [html/template]) is collected in
    the class [Host]; the package's own code is written out over it. *)

From Stdlib Require Import ZArith Lia List Bool Ascii String.
From stdpp Require Import gmap strings list fin_maps.

Local Open Scope string_scope.
Local Open Scope list_scope.
Local Open Scope stdpp_scope.
Local Open Scope nat_scope.

(** ** Byte-level helpers *)

Module Bytes.

Abbreviation of_string := list_ascii_of_string.
Abbreviation to_string := string_of_list_ascii.

Abbreviation eqb := Ascii.eqb.

(** [hasPrefix w s]: the bytes [s] start with the bytes [w]. *)
Fixpoint hasPrefix (w s : list ascii) : bool :=
  match w, s with
  | [], _ => true
  | _ :: _, [] => false
  | a :: w', b :: s' => eqb a b && hasPrefix w' s'
  end.

Definition byte (n : nat) : ascii := ascii_of_nat n.

End Bytes.

(** ** package unicode / strings *)

Module gostrings.

Import Bytes.

(** The UTF-8 encodings of the code points for which [unicode.IsSpace]
    holds: U+0009..U+000D, U+0020, U+0085, U+00A0, U+1680,
    U+2000..U+200A, U+2028, U+2029, U+202F, U+205F, U+3000. *)
Definition spaceRunes : list (list ascii) :=
  [ [byte 9]; [byte 10]; [byte 11]; [byte 12]; [byte 13]; [byte 32];
    [byte 194; byte 133]; [byte 194; byte 160];
    [byte 225; byte 154; byte 128];
    [byte 226; byte 128; byte 128]; [byte 226; byte 128; byte 129];
    [byte 226; byte 128; byte 130]; [byte 226; byte 128; byte 131];
    [byte 226; byte 128; byte 132]; [byte 226; byte 128; byte 133];
    [byte 226; byte 128; byte 134]; [byte 226; byte 128; byte 135];
    [byte 226; byte 128; byte 136]; [byte 226; byte 128; byte 137];
    [byte 226; byte 128; byte 138];
    [byte 226; byte 128; byte 168]; [byte 226; byte 128; byte 169];
    [byte 226; byte 128; byte 175]; [byte 226; byte 129; byte 159];
    [byte 227; byte 128; byte 128] ].

(** [leadSpace ws s]: the length of the first encoding in [ws] that [s]
    starts with, [0] when there is none. *)
Fixpoint leadSpace (ws : list (list ascii)) (s : list ascii) : nat :=
  match ws with
  | [] => 0
  | w :: ws' => if hasPrefix w s then List.length w else leadSpace ws' s
  end.

(** [TrimLeftFunc(s, unicode.IsSpace)]: drop white-space runes from the
    front until the first rune that is not white space.  [n] bounds the
    number of iterations; [length s] always suffices. *)
Fixpoint trimLeft (ws : list (list ascii)) (n : nat) (s : list ascii)
  : list ascii :=
  match n with
  | 0 => s
  | S n' =>
      match leadSpace ws s with
      | 0 => s
      | k => trimLeft ws n' (drop k s)
      end
  end.

Definition TrimLeftSpace (s : list ascii) : list ascii :=
  trimLeft spaceRunes (List.length s) s.

(** [TrimRightFunc(s, unicode.IsSpace)]: the same from the back; decoding
    the last rune is matching a reversed encoding on the reversed bytes. *)
Definition TrimRightSpace (s : list ascii) : list ascii :=
  rev (trimLeft (map (@rev ascii) spaceRunes) (List.length s) (rev s)).

(** [gostrings.TrimSpace] *)
Definition TrimSpace (s : string) : string :=
  to_string (TrimRightSpace (TrimLeftSpace (of_string s))).

(** A byte string is trimmed when no white-space rune starts or ends it. *)
Definition trimmed (l : list ascii) : Prop :=
  leadSpace spaceRunes l = 0 ∧
  leadSpace (map (@rev ascii) spaceRunes) (rev l) = 0.

(** [strings.ReplaceAll(s, string(old), string(new))] for one-byte
    [old] and [new]. *)
Definition ReplaceByte (old new : ascii) (s : string) : string :=
  to_string (map (fun b => if eqb b old then new else b) (of_string s)).

(** The search of [strings.Index]: [i] is the index in the whole string of
    the first byte of [s]; the result is the index of the first place from
    there on where [substr] starts, or [-1]. *)
Fixpoint indexFrom (substr s : list ascii) (i : Z) : Z :=
  if hasPrefix substr s then i
  else
    match s with
    | [] => (-1)%Z
    | _ :: s' => indexFrom substr s' (i + 1)%Z
    end.

(** [strings.Index(s, substr)] *)
Definition Index (s substr : string) : Z :=
  indexFrom (of_string substr) (of_string s) 0%Z.

(** [strings.Contains(s, string(b))] for a one-byte needle. *)
Definition ContainsByte (s : string) (b : ascii) : bool :=
  existsb (eqb b) (of_string s).

End gostrings.

(** ** package path/filepath *)

(** The host operating systems, as far as [path/filepath] tells them apart:
    [Separator] is a backslash on Windows and a slash everywhere else. *)
Inductive GOOS := posix | windows.

Module filepath.

Import Bytes.

Definition slash : ascii := "/"%char.
Definition backslash : ascii := "\"%char.
Definition dot : ascii := "."%char.

Definition Separator (os : GOOS) : ascii :=
  match os with posix => slash | windows => backslash end.

(** A byte that is neither a slash nor a backslash. *)
Definition plainByte (a : ascii) : bool :=
  negb (eqb a slash) && negb (eqb a backslash).

(** [os.IsPathSeparator] *)
Definition IsPathSeparator (os : GOOS) (c : ascii) : bool :=
  match os with
  | posix => eqb c slash
  | windows => eqb c backslash || eqb c slash
  end.

(** The loop of [filepath.Ext], walking [path] from its last byte: [r] is
    what is left to visit (reversed), [acc] the bytes already passed. *)
Fixpoint extFrom (os : GOOS) (r acc : list ascii) : list ascii :=
  match r with
  | [] => []
  | c :: r' =>
      if IsPathSeparator os c then []
      else if eqb c dot then c :: acc
      else extFrom os r' (c :: acc)
  end.

(** [filepath.Ext]: the suffix beginning at the final dot in the final
    element of [path]; empty if there is no dot. *)
Definition Ext (os : GOOS) (path : string) : string :=
  to_string (extFrom os (rev (of_string path)) []).

(** [path] has a dot in its final element: a dot after which no path
    separator follows. *)
Definition dotSuffixed (os : GOOS) (path : string) : Prop :=
  ∃ pre suf, of_string path = pre ++ dot :: suf ∧
             Forall (λ c, IsPathSeparator os c = false) suf.

(** [filepath.ToSlash] *)
Definition ToSlash (os : GOOS) (path : string) : string :=
  if eqb (Separator os) slash then path
  else gostrings.ReplaceByte (Separator os) slash path.

(** [filepath.FromSlash] *)
Definition FromSlash (os : GOOS) (path : string) : string :=
  if eqb (Separator os) slash then path
  else gostrings.ReplaceByte slash (Separator os) path.

End filepath.

(** ** Errors, directory entries, the output sink *)

(** Go's [error] values met by the package: its own four sentinel errors,
    errors made on the spot with [errors.New], and the errors handed back by
    the host ([os], [embed], [html/template]), of which the package only
    asks whether they mean "does not exist" and what their text is. *)
Inductive error :=
| ErrBasePathNotSet
| ErrNoSubDirsProvided
| ErrInvalidSubDir
| ErrNoEmbeddedFilesProvided
| errors_New (text : string)
| HostError (notExist : bool) (text : string).

(** [err.Error()] *)
Definition error_Error (e : error) : string :=
  match e with
  | ErrBasePathNotSet => "templates: no value set for TemplatesBasePath"
  | ErrNoSubDirsProvided =>
      "templates: no template subdirectories were provided, at least one must be"
  | ErrInvalidSubDir =>
      "templates: empty or all whitespace string provided for TemplatesSubDirs is not allowed"
  | ErrNoEmbeddedFilesProvided => "templates: no embedded files provided"
  | errors_New text => text
  | HostError _ text => text
  end.

(** [os.IsNotExist] on a non-nil error *)
Definition os_IsNotExist (e : error) : bool :=
  match e with
  | HostError notExist _ => notExist
  | _ => false
  end.

(** A Go result pair [(value, err)] of which exactly one side is used. *)
Inductive result (A : Type) :=
| Ok (a : A)
| Err (e : error).
Arguments Ok {A} a.
Arguments Err {A} e.

(** [fs.DirEntry], as far as the package looks at it. *)
Record DirEntry := mkDirEntry { Name : string; IsDir : bool }.

(** [embed.FS]: the zero value [embed.FS{}] holds no files; any other value
    answers [ReadDir]. *)
Definition embed_FS := option (string → result (list DirEntry)).

Definition embed_ReadDir (e : embed_FS) (name : string)
  : result (list DirEntry) :=
  match e with
  | Some readDir => readDir name
  | None => Err (HostError true ("open " +:+ name +:+ ": file does not exist"))
  end.

(** [e == (embed.FS{})] *)
Definition embed_isZero (e : embed_FS) : bool :=
  match e with None => true | Some _ => false end.

(** What [Show] does to its [http.ResponseWriter]: the template engine
    writes output to it, and [http.Error] reports a failure with a status
    code.  The writer is modelled by the sequence of these calls. *)
Inductive SinkCall :=
| Written (chunk : string)
| http_Error (msg : string) (code : Z).

Definition ResponseWriter := list SinkCall.

Definition StatusInternalServerError : Z := 500.
Definition StatusNotFound : Z := 404.

(** The anonymous struct [Show] hands to the template. *)
Record ShowData (Any : Type) := mkShowData {
  data_Development : bool;
  data_UseLocalFiles : bool;
  data_CacheBustFiles : gmap string string;
  data_InjectedData : Any
}.
Arguments mkShowData {Any}.

(** ** The host *)

(** Everything the package calls outside itself and that depends on the
    machine it runs on.  [Any] stands for [interface{}] values, [Template]
    for [*template.Template]. *)
Class Host := {
  goos : GOOS;
  (** [filepath.Join] of two elements *)
  filepath_Join : string → string → string;
  (** the error of [os.Stat], [None] for [nil] *)
  os_Stat : string → option error;
  os_ReadDir : string → result (list DirEntry);
  Any : Type;
  Template : Type;
  (** [template.New("").Funcs(funcs).ParseFiles(paths...)] *)
  ParseFiles : gmap string Any → list string → result Template;
  (** [t.ExecuteTemplate(w, name, data)]: the chunks written to [w], and
      the error *)
  ExecuteTemplate :
    Template → string → ShowData Any → list string * option error
}.

(** ** package templates *)

Section templates_pkg.

Context `{Host}.

Import gostrings filepath.

(** [Config] is the set of configuration settings for working with
    templates; [templates] is the registry of parsed groups. *)
Record Config := mkConfig {
  Development : bool;
  UseLocalFiles : bool;
  BasePath : string;
  SubDirs : list string;
  Extension : string;
  UseEmbedded : bool;
  EmbeddedFS : embed_FS;
  FuncMap : gmap string Any;
  CacheBustingFilePairs : gmap string string;
  templates : gmap string Template
}.

Definition set_BasePath (v : string) (c : Config) : Config :=
  mkConfig (Development c) (UseLocalFiles c) v (SubDirs c) (Extension c)
    (UseEmbedded c) (EmbeddedFS c) (FuncMap c) (CacheBustingFilePairs c)
    (templates c).

Definition set_SubDirs (v : list string) (c : Config) : Config :=
  mkConfig (Development c) (UseLocalFiles c) (BasePath c) v (Extension c)
    (UseEmbedded c) (EmbeddedFS c) (FuncMap c) (CacheBustingFilePairs c)
    (templates c).

Definition set_Extension (v : string) (c : Config) : Config :=
  mkConfig (Development c) (UseLocalFiles c) (BasePath c) (SubDirs c) v
    (UseEmbedded c) (EmbeddedFS c) (FuncMap c) (CacheBustingFilePairs c)
    (templates c).

Definition set_templates (v : gmap string Template) (c : Config) : Config :=
  mkConfig (Development c) (UseLocalFiles c) (BasePath c) (SubDirs c)
    (Extension c) (UseEmbedded c) (EmbeddedFS c) (FuncMap c)
    (CacheBustingFilePairs c) v.

Definition defaultExtension : string := "html".

(** [NewOnDiskConfig] *)
Definition NewOnDiskConfig (basePath : string) (subdirs : list string)
  : Config :=
  mkConfig false false basePath subdirs defaultExtension false None ∅ ∅ ∅.

(** [NewEmbeddedConfig] *)
Definition NewEmbeddedConfig (embeddedFS : embed_FS) (basePath : string)
  (subdirs : list string) : Config :=
  mkConfig false false basePath subdirs defaultExtension true embeddedFS
    ∅ ∅ ∅.

(** [if _, err := os.Stat(path); os.IsNotExist(err) { return err }]:
    the error to return, if any. *)
Definition statNotExist (path : string) : option error :=
  match os_Stat path with
  | Some err => if os_IsNotExist err then Some err else None
  | None => None
  end.

(** The loop of [validate] over [c.SubDirs]: the list as the loop leaves it
    (entries are overwritten in place as they pass), and the error it
    returns with. *)
Fixpoint validateSubDirs (basePath : string) (subDirs : list string)
  : list string * option error :=
  match subDirs with
  | [] => ([], None)
  | p0 :: rest =>
      let p := TrimSpace p0 in
      if decide (p = "") then (subDirs, Some ErrInvalidSubDir)
      else
        let p := FromSlash goos p in
        match statNotExist (filepath_Join basePath p) with
        | Some err => (subDirs, Some err)
        | None =>
            let '(rest', err) := validateSubDirs basePath rest in
            (p :: rest', err)
        end
  end.

(** [(c *Config) validate]: the configuration as [validate] leaves it, and
    its error ([None] for [nil]). *)
Definition validate (c : Config) : Config * option error :=
  let c := set_BasePath (TrimSpace (BasePath c)) c in
  if decide (BasePath c = "") then (c, Some ErrBasePathNotSet)
  else
    match (if UseEmbedded c then None else statNotExist (BasePath c)) with
    | Some err => (c, Some err)
    | None =>
        let '(subDirs, err) :=
          if UseEmbedded c then (SubDirs c, None)
          else validateSubDirs (BasePath c) (SubDirs c) in
        let c := set_SubDirs subDirs c in
        match err with
        | Some e => (c, Some e)
        | None =>
            let c := set_Extension (TrimSpace (Extension c)) c in
            let c :=
              if decide (Extension c = "")
              then set_Extension defaultExtension c else c in
            if UseEmbedded c && embed_isZero (EmbeddedFS c)
            then (c, Some ErrNoEmbeddedFilesProvided)
            else (c, None)
        end
    end.

(** The [ReadDir] func chosen by [buildPathsToFiles]. *)
Definition readFunc (c : Config) : string → result (list DirEntry) :=
  if UseEmbedded c then embed_ReadDir (EmbeddedFS c) else os_ReadDir.

(** The directory path [buildPathsToFiles] lists. *)
Definition listedDirectory (c : Config) (pathToDirectory : string) : string :=
  if UseEmbedded c then ToSlash goos pathToDirectory else pathToDirectory.

(** The test that keeps a directory entry: not a directory, and an
    extension equal to ["." + c.Extension]. *)
Definition isTemplateFile (c : Config) (f : DirEntry) : bool :=
  negb (IsDir f) && bool_decide (Ext goos (Name f) = "." +:+ Extension c).

(** The complete path built for a kept entry. *)
Definition completePathToFile (c : Config) (pathToDirectory : string)
  (f : DirEntry) : string :=
  let p := filepath_Join pathToDirectory (Name f) in
  if UseEmbedded c then ToSlash goos p else p.

(** The loop of [buildPathsToFiles] over the directory entries. *)
Fixpoint collectPaths (c : Config) (pathToDirectory : string)
  (files : list DirEntry) : list string :=
  match files with
  | [] => []
  | f :: files' =>
      if IsDir f then collectPaths c pathToDirectory files'
      else if negb (bool_decide (Ext goos (Name f) = "." +:+ Extension c))
      then collectPaths c pathToDirectory files'
      else completePathToFile c pathToDirectory f
             :: collectPaths c pathToDirectory files'
  end.

(** [(c *Config) buildPathsToFiles] *)
Definition buildPathsToFiles (c : Config) (pathToDirectory : string)
  : result (list string) :=
  let pathToDirectory := listedDirectory c pathToDirectory in
  match readFunc c pathToDirectory with
  | Err err => Err err
  | Ok files => Ok (collectPaths c pathToDirectory files)
  end.

(** The directory [Build] lists for a subdirectory. *)
Definition completePathToSubdDir (c : Config) (subDir : string) : string :=
  let p := filepath_Join (BasePath c) subDir in
  if UseEmbedded c then ToSlash goos p else p.

(** The files [Build] discovers for a subdirectory. *)
Definition subDirFiles (c : Config) (subDir : string) : result (list string) :=
  buildPathsToFiles c (completePathToSubdDir c subDir).

(** The loop of [Build] over [c.SubDirs]: the configuration with the
    registry as the loop leaves it, the lines it logged, and the error it
    returns with. *)
Fixpoint buildSubDirs (c : Config) (baseFilePaths : list string)
  (subDirs : list string) : Config * list string * option error :=
  match subDirs with
  | [] => (c, [], None)
  | subDir :: rest =>
      match buildPathsToFiles c (completePathToSubdDir c subDir) with
      | Err innerErr => (c, [], Some innerErr)
      | Ok subdirFilepaths =>
          if Nat.eqb (List.length subdirFilepaths) 0
          then buildSubDirs c baseFilePaths rest
          else
            let subdirFilepaths := subdirFilepaths ++ baseFilePaths in
            match ParseFiles (FuncMap c) subdirFilepaths with
            | Err innerErr =>
                (c,
                 ["templates.Build error parsing files at subdir '" +:+ subDir
                    +:+ "' " +:+ error_Error innerErr],
                 Some innerErr)
            | Ok t =>
                buildSubDirs
                  (set_templates (<[subDir := t]> (templates c)) c)
                  baseFilePaths rest
            end
      end
  end.

(** [(c *Config) Build]: the configuration as [Build] leaves it, the lines
    it logged, and its error ([None] for [nil]). *)
Definition Build (c : Config) : Config * list string * option error :=
  let '(c, err) := validate c in
  match err with
  | Some e => (c, [], Some e)
  | None =>
      let c := set_templates ∅ c in
      match buildPathsToFiles c (BasePath c) with
      | Err err => (c, [], Some err)
      | Ok baseFilePaths =>
          if Nat.ltb 0 (List.length baseFilePaths)
          then
            match ParseFiles (FuncMap c) baseFilePaths with
            | Err innerErr =>
                (c,
                 ["templates.Build error parsing files at base path "
                    +:+ error_Error innerErr],
                 Some innerErr)
            | Ok t =>
                buildSubDirs (set_templates (<["" := t]> (templates c)) c)
                  baseFilePaths (SubDirs c)
            end
          else buildSubDirs c baseFilePaths (SubDirs c)
      end
  end.

(** The template name [Show] hands to the engine: the extension is added
    when [filepath.Ext] finds none. *)
Definition nameWithExtension (c : Config) (templateName : string) : string :=
  let ext := Ext goos templateName in
  if decide (ext = "") then templateName +:+ "." +:+ Extension c
  else templateName.

(** The struct of values [Show] hands to the template. *)
Definition showData (c : Config) (injectedData : Any) : ShowData Any :=
  mkShowData (Development c) (UseLocalFiles c) (CacheBustingFilePairs c)
    injectedData.

(** What [Show] does with the outcome of [t.ExecuteTemplate(w, ...)]: the
    chunks are on the writer; an error is reported with [http.Error] and
    logged. *)
Definition reportExecution (w : ResponseWriter)
  (outcome : list string * option error) : ResponseWriter * list string :=
  let '(chunks, res) := outcome in
  let w := w ++ map Written chunks in
  match res with
  | Some err =>
      (w ++ [http_Error (error_Error err) StatusNotFound],
       ["templates.Show: error during execute " +:+ error_Error err])
  | None => (w, [])
  end.

(** [(c *Config) Show]: the calls made on the writer [w], appended to those
    it had received before, and the lines logged. *)
Definition Show (c : Config) (w : ResponseWriter) (subdir templateName : string)
  (injectedData : Any) : ResponseWriter * list string :=
  let data := showData c injectedData in
  let templateName := nameWithExtension c templateName in
  match templates c !! subdir with
  | None =>
      let err :=
        errors_New ("templates.Show: invalid subdirectory '" +:+ subdir
                      +:+ "'") in
      (w ++ [http_Error (error_Error err) StatusInternalServerError], [])
  | Some t => reportExecution w (ExecuteTemplate t templateName data)
  end.

Definition set_Development (v : bool) (c : Config) : Config :=
  mkConfig v (UseLocalFiles c) (BasePath c) (SubDirs c) (Extension c)
    (UseEmbedded c) (EmbeddedFS c) (FuncMap c) (CacheBustingFilePairs c)
    (templates c).

Definition set_UseLocalFiles (v : bool) (c : Config) : Config :=
  mkConfig (Development c) v (BasePath c) (SubDirs c) (Extension c)
    (UseEmbedded c) (EmbeddedFS c) (FuncMap c) (CacheBustingFilePairs c)
    (templates c).

Definition set_CacheBustingFilePairs (v : gmap string string) (c : Config)
  : Config :=
  mkConfig (Development c) (UseLocalFiles c) (BasePath c) (SubDirs c)
    (Extension c) (UseEmbedded c) (EmbeddedFS c) (FuncMap c) v (templates c).

(** [NewConfig] *)
Definition NewConfig : Config :=
  mkConfig false false "" [] defaultExtension false None ∅ ∅ ∅.

(** The package-level functions work on the package-level variable
    [config]; they are modelled as functions of its value. *)

(** [DefaultConfig] *)
Definition DefaultConfig (config : Config) : Config := NewConfig.

(** [Build], package level *)
Definition pkg_Build (config : Config) : Config * list string * option error :=
  Build config.

(** [Show], package level *)
Definition pkg_Show (config : Config) (w : ResponseWriter)
  (subdir templateName : string) (injectedData : Any)
  : ResponseWriter * list string :=
  Show config w subdir templateName injectedData.

(** [GetConfig]: the pointer it returns is the package-level variable. *)
Definition GetConfig (config : Config) : Config := config.

(** [Development], package level *)
Definition pkg_Development (yes : bool) (config : Config) : Config :=
  set_Development yes config.

(** [UseLocalFiles], package level *)
Definition pkg_UseLocalFiles (yes : bool) (config : Config) : Config :=
  set_UseLocalFiles yes config.

(** [CacheBustingFilePairs], package level *)
Definition pkg_CacheBustingFilePairs (pairs : gmap string string)
  (config : Config) : Config :=
  set_CacheBustingFilePairs pairs config.

End templates_pkg.

(** ** templates-templatefuncs.go *)

Module templatefuncs.

Import Bytes.

(** A calendar date, the part of [time.Time] that the layout ["2006-01-02"]
    fills in. *)
Record Time := mkTime { year : Z; month : Z; day : Z }.

Definition isDigit (c : ascii) : bool :=
  (48 <=? nat_of_ascii c)%nat && (nat_of_ascii c <=? 57)%nat.

Definition digit (c : ascii) : Z := (Z.of_nat (nat_of_ascii c) - 48)%Z.

(** [time.getnum(s, true)]: exactly two digits. *)
Definition getnum2 (s : list ascii) : option (Z * list ascii) :=
  match s with
  | a :: b :: rest =>
      if isDigit a && isDigit b then Some ((digit a * 10 + digit b)%Z, rest)
      else None
  | _ => None
  end.

(** The [stdLongYear] case of [time.Parse]: four digits. *)
Definition getyear (s : list ascii) : option (Z * list ascii) :=
  match s with
  | a :: b :: c :: d :: rest =>
      if isDigit a && isDigit b && isDigit c && isDigit d
      then Some
             ((((digit a * 10 + digit b) * 10 + digit c) * 10 + digit d)%Z,
              rest)
      else None
  | _ => None
  end.

(** [time.skip(value, "-")] *)
Definition skipDash (s : list ascii) : option (list ascii) :=
  match s with
  | c :: rest => if eqb c "-"%char then Some rest else None
  | [] => None
  end.

Definition isLeap (y : Z) : bool :=
  (y mod 4 =? 0)%Z && (negb (y mod 100 =? 0)%Z || (y mod 400 =? 0)%Z).

(** [time.daysIn] *)
Definition daysIn (m y : Z) : Z :=
  if (m =? 2)%Z && isLeap y then 29%Z
  else if (m =? 2)%Z then 28%Z
  else if (m =? 4)%Z || (m =? 6)%Z || (m =? 9)%Z || (m =? 11)%Z then 30%Z
  else 31%Z.

(** [time.Parse("2006-01-02", value)]: [None] when it returns an error.
    The layout is a four-digit year, a two-digit month and a two-digit
    day, separated by dashes; the month must lie in 1..12, nothing may
    follow the day, and the day must exist in that month of that year. *)
Definition time_Parse_ymd (value : string) : option Time :=
  match getyear (of_string value) with
  | None => None
  | Some (y, value) =>
  match skipDash value with
  | None => None
  | Some value =>
  match getnum2 value with
  | None => None
  | Some (m, value) =>
  if (m <=? 0)%Z || (12 <? m)%Z then None else
  match skipDash value with
  | None => None
  | Some value =>
  match getnum2 value with
  | None => None
  | Some (d, value) =>
  match value with
  | _ :: _ => None
  | [] =>
      if (d <? 1)%Z || (daysIn m y <? d)%Z then None
      else Some (mkTime y m d)
  end end end end end end.

(** [FuncIndexOf] *)
Definition FuncIndexOf (needle haystack : string) : Z :=
  gostrings.Index haystack needle.

Section funcs.

(** [t.Format(format)] of package [time], not modelled further. *)
Variable time_Format : Time → string → string.

(** The width of Go's [int] on the host, 32 or 64 bits. *)
Variable intSize : Z.

(** Two's-complement wrap-around of [int] arithmetic. *)
Definition wrapInt (z : Z) : Z :=
  ((z + 2 ^ (intSize - 1)) mod 2 ^ intSize - 2 ^ (intSize - 1))%Z.

(** [FuncDateReformat] *)
Definition FuncDateReformat (date format : string) : string :=
  match time_Parse_ymd date with
  | None => date
  | Some t => time_Format t format
  end.

(** [FuncAddInt] *)
Definition FuncAddInt (x y : Z) : Z := wrapInt (x + y)%Z.

End funcs.

End templatefuncs.

(** ** A small host for examples *)

(** A machine whose disk holds the tree

      templates/  header.html  footer.html  notes.txt
      templates/app/   index.html  users.html  report.html.bak  partials/
      templates/help/  html.txt
      templates/bad/   broken.html

    where [broken.html] does not parse.  The same tree is available as an
    embedded bundle.  The paths of the examples are clean, so that
    [filepath.Join] is concatenation with the separator. *)
Module Example.

Import Bytes filepath.

Definition tree : list (string * list DirEntry) :=
  [ ("templates",
      [ mkDirEntry "app" true; mkDirEntry "bad" true;
        mkDirEntry "footer.html" false; mkDirEntry "header.html" false;
        mkDirEntry "help" true; mkDirEntry "notes.txt" false ]);
    ("templates/app",
      [ mkDirEntry "index.html" false; mkDirEntry "partials" true;
        mkDirEntry "report.html.bak" false; mkDirEntry "users.html" false ]);
    ("templates/app/partials", []);
    ("templates/help", [ mkDirEntry "html.txt" false ]);
    ("templates/bad", [ mkDirEntry "broken.html" false ]) ].

Fixpoint assoc (k : string) (l : list (string * list DirEntry))
  : option (list DirEntry) :=
  match l with
  | [] => None
  | (k', v) :: l' => if String.eqb k k' then Some v else assoc k l'
  end.

Definition notExist (name : string) : error :=
  HostError true ("open " +:+ name +:+ ": no such file or directory").

Definition readDir (name : string) : result (list DirEntry) :=
  match assoc name tree with
  | Some entries => Ok entries
  | None => Err (notExist name)
  end.

Definition stat (name : string) : option error :=
  match assoc name tree with
  | Some _ => None
  | None => Some (notExist name)
  end.

Definition join (os : GOOS) (a b : string) : string :=
  if String.eqb a "" then b
  else if String.eqb b "" then a
  else a +:+ String (Separator os) b.

Fixpoint untilSeparator (os : GOOS) (r : list ascii) : list ascii :=
  match r with
  | [] => []
  | c :: r' => if IsPathSeparator os c then [] else c :: untilSeparator os r'
  end.

(** [filepath.Base] of a clean path *)
Definition base (os : GOOS) (path : string) : string :=
  to_string (rev (untilSeparator os (rev (of_string path)))).

(** A parsed group is represented by the list of files it was parsed
    from. *)
Definition parse (funcs : gmap string unit) (paths : list string)
  : result (list string) :=
  if existsb (λ p, String.eqb (base posix (ToSlash windows p)) "broken.html")
       paths
  then Err (HostError false "template: broken.html:1: unexpected EOF")
  else Ok paths.

Definition execute (t : list string) (name : string) (data : ShowData unit)
  : list string * option error :=
  if existsb (λ p, String.eqb (base posix (ToSlash windows p)) name) t
  then (["<html>" +:+ name +:+ "</html>"], None)
  else ([], Some (HostError false
                    ("html/template: " +:+ name +:+ " is undefined"))).

(** The host: the machine above under the given operating system.  Disk
    paths are looked up whatever separator they are written with. *)
Definition host (os : GOOS) : Host :=
  {| goos := os;
     filepath_Join := join os;
     os_Stat := λ name, stat (ToSlash windows name);
     os_ReadDir := λ name, readDir (ToSlash windows name);
     Any := unit;
     Template := list string;
     ParseFiles := parse;
     ExecuteTemplate := execute |}.

(** The embedded bundle: slash-separated names only. *)
Definition bundle : embed_FS := Some readDir.

Definition onDisk (os : GOOS) (subdirs : list string) : Config (H := host os) :=
  NewOnDiskConfig (H := host os) "templates" subdirs.

Definition embedded (os : GOOS) (subdirs : list string)
  : Config (H := host os) :=
  NewEmbeddedConfig (H := host os) bundle "templates" subdirs.

End Example.

(* ================================================================== *)
(** * Properties *)

(** ** Facts about the byte-level helpers *)

Module BytesFacts.

Import Bytes.

Lemma to_of_string (s : string) : to_string (of_string s) = s.
Proof. apply string_of_list_ascii_of_string. Qed.

Lemma of_to_string (l : list ascii) : of_string (to_string l) = l.
Proof. apply list_ascii_of_string_of_list_ascii. Qed.

Lemma of_string_inj (s t : string) : of_string s = of_string t → s = t.
Proof.
  intros E. rewrite <- (to_of_string s), <- (to_of_string t). now rewrite E.
Qed.

Lemma of_string_append (s t : string) :
  of_string (s +:+ t) = of_string s ++ of_string t.
Proof. induction s as [|a s IH]; simpl; [reflexivity | now rewrite IH]. Qed.

Lemma hasPrefix_nil_r (w : list ascii) : hasPrefix w [] = true → w = [].
Proof. destruct w; [reflexivity | discriminate]. Qed.

Lemma hasPrefix_take (w s : list ascii) (m : nat) :
  hasPrefix w (take m s) = true → hasPrefix w s = true.
Proof.
  revert s m. induction w as [|a w IH]; intros s m; [reflexivity|].
  destruct s as [|b s]; destruct m as [|m]; simpl; try discriminate.
  intros E. apply andb_true_iff in E as [E1 E2].
  rewrite E1. simpl. eauto.
Qed.

(** Mapping a byte function that no byte of [w] can tell from the identity
    does not change whether [w] is a prefix. *)
Lemma hasPrefix_map (f : ascii → ascii) (w s : list ascii) :
  (∀ a b, In a w → eqb a (f b) = eqb a b) →
  hasPrefix w (map f s) = hasPrefix w s.
Proof.
  revert s. induction w as [|a w IH]; intros s Hf; [reflexivity|].
  destruct s as [|b s]; [reflexivity|]. simpl.
  rewrite Hf by (left; reflexivity).
  rewrite IH; [reflexivity|]. intros; apply Hf; now right.
Qed.

End BytesFacts.

(** ** Facts about [strings.TrimSpace] *)

Module TrimFacts.

Import Bytes BytesFacts gostrings.

Lemma leadSpace_nil (ws : list (list ascii)) : leadSpace ws [] = 0.
Proof.
  induction ws as [|w ws IH]; [reflexivity|]. simpl.
  destruct (hasPrefix w []) eqn:E; [|exact IH].
  apply hasPrefix_nil_r in E. now subst.
Qed.

(** With non-empty encodings, [leadSpace] is zero exactly when no encoding
    is a prefix. *)
Lemma leadSpace_zero (ws : list (list ascii)) (s : list ascii) :
  Forall (λ w, w ≠ []) ws →
  leadSpace ws s = 0 ↔ Forall (λ w, hasPrefix w s = false) ws.
Proof.
  induction 1 as [|w ws Hw _ IH]; simpl.
  - split; [constructor | reflexivity].
  - destruct (hasPrefix w s) eqn:E.
    + split.
      * intros L. destruct w; [congruence | discriminate].
      * intros F. inversion F; congruence.
    + rewrite IH. split; [now constructor | intros F; now inversion F].
Qed.

Lemma trimLeft_clean ws n s :
  leadSpace ws s = 0 → trimLeft ws n s = s.
Proof. intros E. destruct n; simpl; [reflexivity | now rewrite E]. Qed.

Lemma trimLeft_drop ws n s : ∃ k, trimLeft ws n s = drop k s.
Proof.
  revert s. induction n as [|n IH]; intros s; simpl.
  - now exists 0.
  - destruct (leadSpace ws s) as [|k] eqn:E; [now exists 0|].
    destruct (IH (drop (S k) s)) as [j Hj].
    exists (S k + j). now rewrite Hj, drop_drop.
Qed.

(** Enough iterations leave no white space in front. *)
Lemma trimLeft_done ws n s :
  List.length s ≤ n → leadSpace ws (trimLeft ws n s) = 0.
Proof.
  revert s. induction n as [|n IH]; intros s Hn; simpl.
  - destruct s; [apply leadSpace_nil | simpl in Hn; lia].
  - destruct (leadSpace ws s) as [|k] eqn:E; [exact E|].
    apply IH. rewrite length_drop. lia.
Qed.

Lemma spaceRunes_nonempty : Forall (λ w : list ascii, w ≠ []) spaceRunes.
Proof. repeat constructor; discriminate. Qed.

Lemma TrimRightSpace_take s : ∃ m, TrimRightSpace s = take m s.
Proof.
  unfold TrimRightSpace.
  destruct (trimLeft_drop (map (@rev ascii) spaceRunes) (List.length s) (rev s))
    as [k Hk].
  exists (List.length s - k). rewrite Hk.
  change (rev (skipn k (rev s)) = firstn (List.length s - k) s).
  now rewrite skipn_rev, rev_involutive.
Qed.

Lemma TrimSpace_bytes_trimmed (l : list ascii) :
  trimmed (TrimRightSpace (TrimLeftSpace l)).
Proof.
  split.
  - destruct (TrimRightSpace_take (TrimLeftSpace l)) as [m ->].
    apply (leadSpace_zero _ _ spaceRunes_nonempty).
    assert (L : leadSpace spaceRunes (TrimLeftSpace l) = 0)
      by (apply trimLeft_done; lia).
    apply (leadSpace_zero _ _ spaceRunes_nonempty) in L.
    eapply Forall_impl; [exact L|]. simpl. intros w Hw.
    destruct (hasPrefix w (take m (TrimLeftSpace l))) eqn:E; [|reflexivity].
    apply hasPrefix_take in E. congruence.
  - unfold TrimRightSpace. rewrite rev_involutive.
    apply trimLeft_done. rewrite length_rev. lia.
Qed.

Lemma trimmed_TrimSpace_bytes (l : list ascii) :
  trimmed l → TrimRightSpace (TrimLeftSpace l) = l.
Proof.
  intros [L R]. unfold TrimLeftSpace. rewrite (trimLeft_clean _ _ _ L).
  unfold TrimRightSpace. rewrite (trimLeft_clean _ _ _ R).
  apply rev_involutive.
Qed.

(** [TrimSpace] returns a trimmed string ... *)
Lemma TrimSpace_trimmed (s : string) : trimmed (of_string (TrimSpace s)).
Proof. unfold TrimSpace. rewrite of_to_string. apply TrimSpace_bytes_trimmed. Qed.

(** ... and leaves a trimmed string alone. *)
Lemma trimmed_TrimSpace (s : string) :
  trimmed (of_string s) → TrimSpace s = s.
Proof.
  intros T. unfold TrimSpace. rewrite (trimmed_TrimSpace_bytes _ T).
  apply to_of_string.
Qed.

Lemma TrimSpace_idem (s : string) : TrimSpace (TrimSpace s) = TrimSpace s.
Proof. apply trimmed_TrimSpace, TrimSpace_trimmed. Qed.

Lemma leadSpace_map (f : ascii → ascii) ws s :
  (∀ w a b, In w ws → In a w → eqb a (f b) = eqb a b) →
  leadSpace ws (map f s) = leadSpace ws s.
Proof.
  induction ws as [|w ws IH]; intros Hf; [reflexivity|]. simpl.
  rewrite hasPrefix_map by (intros; eapply Hf; [left|]; eauto).
  rewrite IH; [reflexivity|]. intros; eapply Hf; [right|]; eauto.
Qed.

End TrimFacts.

(** ** Facts about [path/filepath] *)

Module FilepathFacts.

Import Bytes BytesFacts gostrings TrimFacts filepath.

Lemma eqb_eq' (a b : ascii) : eqb a b = true ↔ a = b.
Proof. apply Ascii.eqb_eq. Qed.

Lemma ReplaceByte_bytes old new s :
  of_string (ReplaceByte old new s)
  = map (λ b, if eqb b old then new else b) (of_string s).
Proof. unfold ReplaceByte. apply of_to_string. Qed.

(** No white-space encoding contains a slash or a backslash. *)
Lemma spaceRunes_plain :
  forallb (forallb plainByte) spaceRunes = true.
Proof. vm_compute. reflexivity. Qed.

Lemma spaceRunes_plain_in w a :
  In w spaceRunes ∨ In w (map (@rev ascii) spaceRunes) →
  In a w → a ≠ slash ∧ a ≠ backslash.
Proof.
  intros Hw Ha.
  assert (P : plainByte a = true).
  { pose proof spaceRunes_plain as F.
    rewrite forallb_forall in F. destruct Hw as [Hw|Hw].
    - specialize (F _ Hw). rewrite forallb_forall in F. now apply F.
    - apply in_map_iff in Hw as (w0 & <- & Hw0).
      specialize (F _ Hw0). rewrite forallb_forall in F.
      apply F. now apply in_rev. }
  unfold plainByte in P. apply andb_true_iff in P as [P1 P2].
  split; intros ->; [now rewrite Ascii.eqb_refl in P1
                    | now rewrite Ascii.eqb_refl in P2].
Qed.

(** Swapping one separator for the other is invisible to a byte that is
    neither. *)
Lemma eqb_swap (a b old new : ascii) :
  a ≠ old → a ≠ new → eqb a (if eqb b old then new else b) = eqb a b.
Proof.
  intros Ho Hn. destruct (eqb b old) eqn:E; [|reflexivity].
  apply eqb_eq' in E. subst b.
  destruct (eqb a new) eqn:E1; [apply eqb_eq' in E1; contradiction|].
  destruct (eqb a old) eqn:E2; [apply eqb_eq' in E2; contradiction|].
  reflexivity.
Qed.

Lemma FromSlash_trimmed os s :
  trimmed (of_string s) → trimmed (of_string (FromSlash os s)).
Proof.
  destruct os; unfold FromSlash; simpl; [tauto|].
  intros [L R]. rewrite ReplaceByte_bytes. split.
  - rewrite leadSpace_map; [exact L|].
    intros w a b Hw Ha.
    destruct (spaceRunes_plain_in w a (or_introl Hw) Ha).
    now apply eqb_swap.
  - rewrite <- map_rev. rewrite leadSpace_map; [exact R|].
    intros w a b Hw Ha.
    destruct (spaceRunes_plain_in w a (or_intror Hw) Ha).
    now apply eqb_swap.
Qed.

Lemma FromSlash_idem os s : FromSlash os (FromSlash os s) = FromSlash os s.
Proof.
  destruct os; unfold FromSlash; simpl; [reflexivity|].
  apply of_string_inj. rewrite !ReplaceByte_bytes, map_map.
  apply map_ext. intros b.
  destruct (eqb b slash) eqn:E; [reflexivity | now rewrite E].
Qed.

Lemma FromSlash_empty os s : FromSlash os s = "" → s = "".
Proof.
  destruct os; unfold FromSlash; simpl; [tauto|].
  intros E. apply (f_equal of_string) in E.
  rewrite ReplaceByte_bytes in E. simpl in E.
  apply map_eq_nil in E. apply of_string_inj. exact E.
Qed.

Lemma ContainsByte_false s b :
  ContainsByte s b = false ↔ ¬ In b (of_string s).
Proof.
  unfold ContainsByte. rewrite <- not_true_iff_false, existsb_exists.
  split; intros N.
  - intros I. apply N. exists b. split; [exact I | apply Ascii.eqb_refl].
  - intros (x & I & E). apply eqb_eq' in E. now subst x.
Qed.

(** After [ToSlash] every path separator of the host is a slash. *)
Lemma ToSlash_separators os p c :
  In c (of_string (ToSlash os p)) → IsPathSeparator os c = true → c = slash.
Proof.
  destruct os; unfold ToSlash; simpl.
  - intros _ E. now apply eqb_eq' in E.
  - rewrite ReplaceByte_bytes. intros I E.
    apply in_map_iff in I as (b & Hb & _).
    destruct (eqb b backslash) eqn:Eb; [now subst|]. subst c.
    rewrite Eb in E. simpl in E. now apply eqb_eq' in E.
Qed.

(** [extFrom] finds a dot exactly when one of the bytes it may visit
    before the first separator is a dot. *)
Lemma extFrom_nil os r acc :
  extFrom os r acc = [] ↔
  ¬ ∃ suf pre, r = suf ++ dot :: pre ∧
               Forall (λ c, IsPathSeparator os c = false) suf.
Proof.
  revert acc. induction r as [|c r IH]; intros acc; simpl.
  - split; [|reflexivity]. intros _ (suf & pre & E & _).
    destruct suf; discriminate.
  - destruct (IsPathSeparator os c) eqn:Es.
    + split; [|reflexivity]. intros _ (suf & pre & E & F).
      destruct suf as [|c' suf]; simpl in E; inversion E; subst.
      * destruct os; discriminate.
      * inversion F; congruence.
    + destruct (eqb c dot) eqn:Ed.
      * apply eqb_eq' in Ed. subst c. split; [discriminate|].
        intros N. exfalso. apply N. exists [], r. split; [reflexivity|constructor].
      * rewrite IH. split; intros N (suf & pre & E & F); apply N.
        -- destruct suf as [|c' suf]; simpl in E; inversion E; subst.
           ++ now rewrite Ascii.eqb_refl in Ed.
           ++ exists suf, pre. split; [reflexivity | now inversion F].
        -- exists (c :: suf), pre. subst r. split; [reflexivity | now constructor].
Qed.

Lemma to_string_nil (l : list ascii) : to_string l = "" ↔ l = [].
Proof.
  split; [|now intros ->]. intros E.
  apply (f_equal of_string) in E. now rewrite of_to_string in E.
Qed.

(** [filepath.Ext] is empty exactly when the final element has no dot. *)
Lemma Ext_empty_iff os path : Ext os path = "" ↔ ¬ dotSuffixed os path.
Proof.
  unfold Ext. rewrite to_string_nil, extFrom_nil.
  split; intros N D; apply N.
  - destruct D as (pre & suf & E & F). exists (rev suf), (rev pre).
    split; [|now apply Forall_rev].
    rewrite E, rev_app_distr. simpl. now rewrite <- app_assoc.
  - destruct D as (suf & pre & E & F). exists (rev pre), (rev suf).
    split; [|now apply Forall_rev].
    rewrite <- (rev_involutive (of_string path)), E, rev_app_distr.
    simpl. now rewrite <- app_assoc.
Qed.

End FilepathFacts.

(** ** Validation *)

Section ValidateFacts.

Context `{Host}.

Import Bytes BytesFacts gostrings TrimFacts filepath FilepathFacts.

(** What the loop of [validate] makes of one entry of [SubDirs]. *)
Lemma validateSubDirs_inv basePath subDirs subDirs' :
  validateSubDirs basePath subDirs = (subDirs', None) →
  subDirs' = map (λ p, FromSlash goos (TrimSpace p)) subDirs ∧
  Forall (λ p, TrimSpace p ≠ "" ∧
               statNotExist
                 (filepath_Join basePath (FromSlash goos (TrimSpace p)))
               = None) subDirs.
Proof.
  revert subDirs'. induction subDirs as [|p0 rest IH]; intros subDirs'; simpl.
  - intros [= <-]. split; [reflexivity | constructor].
  - destruct (decide (TrimSpace p0 = "")) as [|Hne]; [discriminate|].
    destruct (statNotExist _) eqn:Hstat; [discriminate|].
    destruct (validateSubDirs basePath rest) as [rest' err] eqn:Hrest.
    intros [= <- ->]. destruct (IH _ eq_refl) as [-> F].
    split; [reflexivity | constructor; auto].
Qed.

(** A normalized entry is a fixed point of the normalization. *)
Lemma normalized_fixed p :
  TrimSpace p ≠ "" →
  let q := FromSlash goos (TrimSpace p) in
  TrimSpace q = q ∧ q ≠ "" ∧ FromSlash goos q = q.
Proof.
  intros Hne q. repeat split.
  - apply trimmed_TrimSpace, FromSlash_trimmed, TrimSpace_trimmed.
  - intros E. apply FromSlash_empty in E. contradiction.
  - apply FromSlash_idem.
Qed.

Lemma validateSubDirs_idem basePath subDirs subDirs' :
  validateSubDirs basePath subDirs = (subDirs', None) →
  validateSubDirs basePath subDirs' = (subDirs', None).
Proof.
  intros V. apply validateSubDirs_inv in V as [-> F].
  induction F as [|p0 rest [Hne Hstat] _ IH]; [reflexivity|].
  destruct (normalized_fixed p0 Hne) as (E1 & E2 & E3).
  simpl. rewrite E1. destruct (decide _) as [|_]; [contradiction|].
  rewrite E3, Hstat, IH. reflexivity.
Qed.

(** What an accepting run of [validate] has checked and left behind. *)
Lemma validate_inv (c c' : Config) :
  validate c = (c', None) →
  c' = mkConfig (Development c) (UseLocalFiles c) (TrimSpace (BasePath c))
         (SubDirs c') (Extension c') (UseEmbedded c) (EmbeddedFS c)
         (FuncMap c) (CacheBustingFilePairs c) (templates c)
  ∧ TrimSpace (BasePath c) ≠ ""
  ∧ Extension c' = (if decide (TrimSpace (Extension c) = "")
                    then defaultExtension else TrimSpace (Extension c))
  ∧ (if UseEmbedded c
     then SubDirs c' = SubDirs c ∧ embed_isZero (EmbeddedFS c) = false
     else statNotExist (TrimSpace (BasePath c)) = None
          ∧ validateSubDirs (TrimSpace (BasePath c)) (SubDirs c)
            = (SubDirs c', None)).
Proof.
  destruct c as [dev ulf bp sds ext ue efs fm cb tm].
  unfold validate. simpl.
  destruct (decide (TrimSpace bp = "")) as [|Hbp]; [discriminate|].
  destruct ue; simpl.
  - destruct (decide (TrimSpace ext = "")) as [Eext|Eext]; simpl;
      (destruct (embed_isZero efs) eqn:Hz; [discriminate|]);
      intros [= <-]; simpl; auto.
  - destruct (statNotExist (TrimSpace bp)) eqn:Hstat; [discriminate|].
    destruct (validateSubDirs (TrimSpace bp) sds) as [sds' err] eqn:Hsds.
    simpl. destruct err; [discriminate|].
    destruct (decide (TrimSpace ext = "")) as [Eext|Eext]; simpl;
      intros [= <-]; simpl; auto.
Qed.

Lemma TrimSpace_defaultExtension : TrimSpace defaultExtension = defaultExtension.
Proof. reflexivity. Qed.

(** The extension [validate] settles on is never blank and is trimmed. *)
Lemma extension_fixed ext :
  let ext' := if decide (TrimSpace ext = "") then defaultExtension
              else TrimSpace ext in
  TrimSpace ext' = ext' ∧ ext' ≠ "".
Proof.
  simpl. destruct (decide (TrimSpace ext = "")) as [E|NE].
  - split; [apply TrimSpace_defaultExtension | discriminate].
  - split; [apply TrimSpace_idem | exact NE].
Qed.

Lemma validateSubDirs_app_l basePath l1 l2 :
  validateSubDirs basePath (l1 ++ l2) = (l1 ++ l2, None) →
  validateSubDirs basePath l1 = (l1, None).
Proof.
  induction l1 as [|p l1 IH]; [reflexivity|]. simpl.
  destruct (decide (TrimSpace p = "")) as [|_]; [discriminate|].
  destruct (statNotExist _); [discriminate|].
  destruct (validateSubDirs basePath (l1 ++ l2)) as [r e].
  intros [= E1 E2 E3]. subst r e. rewrite IH by reflexivity.
  now rewrite E1.
Qed.

(** A validated configuration stays valid when its registry is replaced
    and its subdirectory list is cut short. *)
Lemma validate_prefix (c cv : Config) done rest m :
  validate c = (cv, None) →
  SubDirs cv = done ++ rest →
  validate (set_SubDirs done (set_templates m cv))
  = (set_SubDirs done (set_templates m cv), None).
Proof.
  intros V Hsub.
  apply validate_inv in V as (Hcv & Hbp & Hext & Hmode).
  pose proof (extension_fixed (Extension c)) as [Ex1 Ex2].
  simpl in Ex1, Ex2. rewrite <- Hext in Ex1, Ex2.
  rewrite Hcv. unfold validate. simpl. rewrite TrimSpace_idem.
  destruct (decide (TrimSpace (BasePath c) = "")) as [|_]; [contradiction|].
  destruct (UseEmbedded c) eqn:Hemb; simpl.
  - destruct Hmode as [_ Hz]. rewrite Ex1.
    destruct (decide (Extension cv = "")) as [|_]; [contradiction|].
    simpl. rewrite Hz. reflexivity.
  - destruct Hmode as [Hstat Hv]. rewrite Hstat.
    apply validateSubDirs_idem in Hv. rewrite Hsub in Hv.
    apply validateSubDirs_app_l in Hv. rewrite Hv. simpl. rewrite Ex1.
    destruct (decide (Extension cv = "")) as [|_]; [contradiction|].
    reflexivity.
Qed.

End ValidateFacts.

Section ValidateClaims.

Context `{Host}.

Import Bytes BytesFacts gostrings TrimFacts filepath FilepathFacts.

(** C10.  [validate] is idempotent: when [validate] accepts a configuration,
    running it again on the configuration it left behind (base path trimmed,
    subdirectory names normalized, extension defaulted) accepts it again and
    changes no field. *)
Theorem validate_idempotent (c c' : Config) :
  validate c = (c', None) → validate c' = (c', None).
Proof.
  destruct c as [dev ulf bp sds ext ue efs fm cb tm].
  unfold validate. simpl.
  destruct (decide (TrimSpace bp = "")) as [|Hbp]; [discriminate|].
  destruct ue; simpl.
  - (* embedded *)
    pose proof (extension_fixed ext) as [Ex1 Ex2]. simpl in Ex1, Ex2.
    destruct (decide (TrimSpace ext = "")) as [Eext|Eext]; simpl;
      (destruct (embed_isZero efs) eqn:Hz; [discriminate|]);
      intros [= <-]; simpl; rewrite TrimSpace_idem;
      (destruct (decide (TrimSpace bp = "")) as [|_]; [contradiction|]);
      simpl; rewrite Ex1;
      try (destruct (decide _) as [|_]; [contradiction|]);
      simpl; rewrite Hz; reflexivity.
  - (* on disk *)
    destruct (statNotExist (TrimSpace bp)) eqn:Hstat; [discriminate|].
    destruct (validateSubDirs (TrimSpace bp) sds) as [sds' err] eqn:Hsds.
    simpl. destruct err; [discriminate|].
    apply validateSubDirs_idem in Hsds.
    pose proof (extension_fixed ext) as [Ex1 Ex2]. simpl in Ex1, Ex2.
    destruct (decide (TrimSpace ext = "")) as [Eext|Eext]; simpl;
      intros [= <-]; simpl; rewrite TrimSpace_idem;
      (destruct (decide (TrimSpace bp = "")) as [|_]; [contradiction|]);
      simpl; rewrite Hstat, Hsds; simpl; rewrite Ex1;
      try (destruct (decide _) as [|_]; [contradiction|]);
      reflexivity.
Qed.

(** C5 (amended).  For every on-disk configuration accepted by [validate],
    every entry of the subdirectory list is non-blank after trimming
    surrounding white space, both as it was given and as [validate] left
    it.  (Embedded configurations are not checked.) *)
Theorem validate_onDisk_subDirs_nonblank (c c' : Config) :
  UseEmbedded c = false →
  validate c = (c', None) →
  Forall (λ p, TrimSpace p ≠ "") (SubDirs c) ∧
  Forall (λ p, TrimSpace p ≠ "") (SubDirs c').
Proof.
  intros Hdisk V. apply validate_inv in V as (_ & _ & _ & V).
  rewrite Hdisk in V. destruct V as [_ V].
  apply validateSubDirs_inv in V as [-> F]. split.
  - eapply Forall_impl; [exact F|]. simpl. tauto.
  - apply Forall_map. eapply Forall_impl; [exact F|]. simpl.
    intros p [Hne _]. destruct (normalized_fixed p Hne) as (E1 & E2 & _).
    simpl in E1, E2. now rewrite E1.
Qed.

End ValidateClaims.

(** On a Windows host, validating the on-disk configuration with base path
    [templates], subdirectories [" app/partials "] and [help] and a blank
    extension normalizes it; validating the result changes nothing. *)
Lemma validate_idempotent_witness :
  let c := set_Extension " " (Example.onDisk windows [" app/partials "; "help"]) in
  let c' := set_Extension "html" (Example.onDisk windows ["app\partials"; "help"]) in
  validate c = (c', None) ∧ validate c' = (c', None).
Proof.
  split.
  - vm_compute. reflexivity.
  - apply (validate_idempotent
             (set_Extension " "
                (Example.onDisk windows [" app/partials "; "help"]))).
    vm_compute. reflexivity.
Defined.

(** C5, as first stated, fails for embedded configurations: [validate]
    accepts the embedded configuration with base path [templates] and
    subdirectories [" "] and [help], changes nothing in it, and its first
    subdirectory is blank. *)
Lemma validate_embedded_blank_subdir :
  let c := Example.embedded posix [" "; "help"] in
  validate c = (c, None) ∧
  UseEmbedded c = true ∧
  SubDirs c !! 0%nat = Some " " ∧
  gostrings.TrimSpace " " = "".
Proof. vm_compute. repeat split; reflexivity. Qed.

Lemma validate_onDisk_subDirs_nonblank_witness :
  let c := Example.onDisk posix [" app "; "help"] in
  let c' := Example.onDisk posix ["app"; "help"] in
  UseEmbedded c = false ∧ validate c = (c', None) ∧
  Forall (λ p, gostrings.TrimSpace p ≠ "") (SubDirs c) ∧
  Forall (λ p, gostrings.TrimSpace p ≠ "") (SubDirs c').
Proof.
  split; [reflexivity|]. split; [vm_compute; reflexivity|].
  apply (validate_onDisk_subDirs_nonblank
           (Example.onDisk posix [" app "; "help"])).
  - reflexivity.
  - vm_compute. reflexivity.
Defined.

(** ** Discovery *)

Section DiscoveryFacts.

Context `{Host}.

Import Bytes BytesFacts gostrings filepath FilepathFacts.

Lemma filter_none {A} (P : A → Prop) `{∀ x, Decision (P x)} (l : list A) :
  Forall (λ x, ¬ P x) l → filter P l = [].
Proof.
  induction 1 as [|x l Hx _ IH]; [reflexivity|].
  rewrite filter_cons. destruct (decide (P x)); [contradiction | exact IH].
Qed.

(** The loop of [buildPathsToFiles] is a filter followed by a map. *)
Lemma collectPaths_filter (c : Config) (dir : string) (files : list DirEntry) :
  collectPaths c dir files
  = map (completePathToFile c dir)
      (filter (λ f, IsDir f = false ∧
                    Ext goos (Name f) = "." +:+ Extension c) files).
Proof.
  induction files as [|f files IH]; [reflexivity|].
  simpl collectPaths. rewrite filter_cons.
  destruct (IsDir f) eqn:Ed.
  - destruct (decide _) as [[? _]|_]; [discriminate | exact IH].
  - destruct (decide (Ext goos (Name f) = "." +:+ Extension c)) as [E|NE].
    + rewrite (bool_decide_eq_true_2 _ E). simpl.
      destruct (decide _) as [_|N]; [|exfalso; apply N; now split].
      simpl. now rewrite IH.
    + rewrite (bool_decide_eq_false_2 _ NE). simpl.
      destruct (decide _) as [[_ E]|_]; [contradiction | exact IH].
Qed.

(** [filepath.Ext] of a name that ends in a dot followed by bytes that are
    neither dots nor separators is that ending. *)
Lemma Ext_last_dot os (stem suf : string) :
  Forall (λ ch, ch ≠ dot ∧ IsPathSeparator os ch = false) (of_string suf) →
  Ext os (stem +:+ String dot suf) = String dot suf.
Proof.
  intros F. unfold Ext. rewrite of_string_append. simpl of_string.
  rewrite rev_app_distr. simpl rev. rewrite <- app_assoc. simpl.
  assert (G : ∀ r acc pre,
            Forall (λ ch, ch ≠ dot ∧ IsPathSeparator os ch = false) r →
            extFrom os (r ++ dot :: pre) acc = dot :: rev r ++ acc).
  { induction r as [|ch r IH]; intros acc pre Fr; simpl.
    - now destruct os.
    - inversion Fr as [|? ? [Hd Hs] Fr']; subst. rewrite Hs.
      destruct (eqb ch dot) eqn:E; [apply eqb_eq' in E; contradiction|].
      rewrite IH by assumption. now rewrite <- app_assoc. }
  rewrite G by (now apply Forall_rev).
  rewrite rev_involutive, app_nil_r. simpl. now rewrite to_of_string.
Qed.

Lemma buildPathsToFiles_set_templates (c : Config) m dir :
  buildPathsToFiles (set_templates m c) dir = buildPathsToFiles c dir.
Proof.
  unfold buildPathsToFiles, readFunc, listedDirectory. simpl.
  destruct (UseEmbedded c);
    (destruct (_ : result (list DirEntry)) as [files|]; [|reflexivity]);
    f_equal; induction files as [|f files IH]; simpl; try reflexivity;
    now rewrite IH.
Qed.

End DiscoveryFacts.

Section DiscoveryClaims.

Context `{Host}.

Import Bytes BytesFacts gostrings filepath FilepathFacts.

(** C4.  When the directory can be listed, discovery returns, in listing
    order, the complete paths of exactly those immediate entries that are
    not directories and whose [filepath.Ext] equals ["." + Extension].  An
    entry whose name ends in a dot followed by something else than the
    extension (as [report.html.bak] or [html.txt] for [html]) is therefore
    not kept, wherever else the extension occurs in its name; and when no
    entry qualifies the result is the empty list, not an error. *)
Theorem discovery_keeps_exact_extension (c : Config) (dir : string)
  (files : list DirEntry) :
  readFunc c (listedDirectory c dir) = Ok files →
  let kept :=
    filter (λ f, IsDir f = false ∧ Ext goos (Name f) = "." +:+ Extension c)
      files in
  buildPathsToFiles c dir
  = Ok (map (completePathToFile c (listedDirectory c dir)) kept)
  ∧ (∀ f stem suf,
       Name f = stem +:+ "." +:+ suf →
       Forall (λ ch, ch ≠ dot ∧ IsPathSeparator goos ch = false)
         (of_string suf) →
       suf ≠ Extension c →
       f ∉ kept)
  ∧ (Forall (λ f, IsDir f = true ∨ Ext goos (Name f) ≠ "." +:+ Extension c)
       files →
     buildPathsToFiles c dir = Ok []).
Proof.
  intros Hread kept.
  assert (B : buildPathsToFiles c dir
              = Ok (map (completePathToFile c (listedDirectory c dir)) kept)).
  { unfold buildPathsToFiles. rewrite Hread. now rewrite collectPaths_filter. }
  split; [exact B|]. split.
  - intros f stem suf Hname Hsuf Hne Hin.
    apply list_elem_of_filter in Hin as [[_ E] _].
    rewrite Hname in E. change ("." +:+ suf) with (String dot suf) in E.
    rewrite (Ext_last_dot _ _ _ Hsuf) in E.
    change ("." +:+ Extension c) with (String dot (Extension c)) in E.
    congruence.
  - intros F. rewrite B. f_equal.
    assert (kept = []) as ->; [|reflexivity].
    apply filter_none. eapply Forall_impl; [exact F|]. simpl.
    intros f [Hd|Hx] [Hd' Hx']; congruence.
Qed.

(** C7.  In embedded mode the directory that is listed and every path that
    discovery returns have their separators normalized to forward slashes:
    the bundle is listed at [ToSlash] of the directory, every returned path
    is [ToSlash] of the join of that directory and an entry's name, and no
    byte of any of them is a path separator of the host other than ["/"];
    in particular, where the host's separator is the backslash, none of
    them contains a backslash. *)
Theorem embedded_paths_use_forward_slashes (c : Config) (dir : string)
  (paths : list string) :
  UseEmbedded c = true →
  buildPathsToFiles c dir = Ok paths →
  ∃ files,
    embed_ReadDir (EmbeddedFS c) (ToSlash goos dir) = Ok files ∧
    (∀ p, p ∈ paths →
       ∃ f, f ∈ files ∧
            p = ToSlash goos (filepath_Join (ToSlash goos dir) (Name f))) ∧
    ∀ p, p = ToSlash goos dir ∨ p ∈ paths →
      (∀ ch, In ch (of_string p) → IsPathSeparator goos ch = true →
             ch = slash) ∧
      (Separator goos = backslash → ContainsByte p backslash = false).
Proof.
  intros Hemb. unfold buildPathsToFiles, readFunc, listedDirectory.
  rewrite Hemb.
  destruct (embed_ReadDir (EmbeddedFS c) (ToSlash goos dir))
    as [files|] eqn:Hread; [|discriminate].
  intros [= <-]. exists files. split; [reflexivity|].
  assert (Shape : ∀ p, p ∈ collectPaths c (ToSlash goos dir) files →
            ∃ f, f ∈ files ∧
                 p = ToSlash goos (filepath_Join (ToSlash goos dir) (Name f))).
  { intros p Hin. rewrite collectPaths_filter in Hin.
    apply list_elem_of_fmap in Hin as (f & -> & Hf).
    apply list_elem_of_filter in Hf as [_ Hf].
    exists f. split; [exact Hf|].
    unfold completePathToFile. now rewrite Hemb. }
  split; [exact Shape|].
  assert (N : ∀ q, (∀ ch, In ch (of_string (ToSlash goos q)) →
                          IsPathSeparator goos ch = true → ch = slash) ∧
                   (Separator goos = backslash →
                    ContainsByte (ToSlash goos q) backslash = false)).
  { intros q. split; [intros ch; apply ToSlash_separators|].
    intros Hs. apply ContainsByte_false. intros I.
    apply ToSlash_separators in I; [discriminate|].
    destruct goos; [discriminate | reflexivity]. }
  intros p [->|Hin]; [apply N|].
  destruct (Shape p Hin) as (f & _ & ->). apply N.
Qed.

End DiscoveryClaims.

Lemma discovery_keeps_exact_extension_witness :
  let c := Example.onDisk posix ["app"] in
  buildPathsToFiles c "templates/app"
  = Ok ["templates/app/index.html"; "templates/app/users.html"]
  ∧ buildPathsToFiles c "templates/help" = Ok [].
Proof.
  pose proof (discovery_keeps_exact_extension (H := Example.host posix)
                (Example.onDisk posix ["app"]) "templates/app"
                [ mkDirEntry "index.html" false; mkDirEntry "partials" true;
                  mkDirEntry "report.html.bak" false;
                  mkDirEntry "users.html" false ]) as W.
  split; [apply W; vm_compute; reflexivity|].
  apply (discovery_keeps_exact_extension (H := Example.host posix)
           (Example.onDisk posix ["app"]) "templates/help"
           [ mkDirEntry "html.txt" false ]).
  - vm_compute. reflexivity.
  - constructor; [right; vm_compute; discriminate | constructor].
Defined.

Lemma embedded_paths_use_forward_slashes_witness :
  let c := Example.embedded windows ["app"] in
  let paths := ["templates/app/index.html"; "templates/app/users.html"] in
  buildPathsToFiles c "templates\app" = Ok paths
  ∧ ∀ p, p = "templates/app" ∨ p ∈ paths →
      (∀ ch, In ch (Bytes.of_string p) →
             filepath.IsPathSeparator windows ch = true →
             ch = filepath.slash) ∧
      gostrings.ContainsByte p filepath.backslash = false.
Proof.
  intros c paths.
  assert (B : buildPathsToFiles c "templates\app" = Ok paths)
    by (vm_compute; reflexivity).
  split; [exact B|].
  destruct (embedded_paths_use_forward_slashes (H := Example.host windows)
              c "templates\app" paths eq_refl B) as (files & _ & _ & N).
  intros p Hp. destruct (N p Hp) as [N1 N2].
  split; [exact N1 | apply N2; reflexivity].
Defined.

(** ** Building the registry *)

Section BuildFacts.

Context `{Host}.

Import Bytes BytesFacts gostrings TrimFacts filepath FilepathFacts.

Lemma buildPathsToFiles_set_SubDirs (c : Config) l dir :
  buildPathsToFiles (set_SubDirs l c) dir = buildPathsToFiles c dir.
Proof.
  unfold buildPathsToFiles, readFunc, listedDirectory. simpl.
  destruct (UseEmbedded c);
    (destruct (_ : result (list DirEntry)) as [files|]; [|reflexivity]);
    f_equal; induction files as [|f files IH]; simpl; try reflexivity;
    now rewrite IH.
Qed.

Lemma subDirFiles_set_templates (c : Config) m k :
  subDirFiles (set_templates m c) k = subDirFiles c k.
Proof. apply buildPathsToFiles_set_templates. Qed.

Lemma subDirFiles_set_SubDirs (c : Config) l k :
  subDirFiles (set_SubDirs l c) k = subDirFiles c k.
Proof. apply buildPathsToFiles_set_SubDirs. Qed.

Lemma length_zero {A} (l : list A) :
  Nat.eqb (List.length l) 0 = true ↔ l = [].
Proof. destruct l; simpl; split; congruence. Qed.

(** The loop only ever touches the registry. *)
Lemma buildSubDirs_settings c base l c' log err :
  buildSubDirs c base l = (c', log, err) →
  c' = set_templates (templates c') c.
Proof.
  revert c. induction l as [|sd rest IH]; intros c; simpl.
  - intros [= <- _ _]. now destruct c.
  - fold (subDirFiles c sd).
    destruct (subDirFiles c sd) as [own|e]; [|intros [= <- _ _]; now destruct c].
    destruct (Nat.eqb (List.length own) 0); [apply IH|].
    destruct (ParseFiles (FuncMap c) (own ++ base)) as [t|e];
      [|intros [= <- _ _]; now destruct c].
    intros B. apply IH in B. exact B.
Qed.

(** What a run of the loop without error has done: every subdirectory was
    listed; one with files got its group, parsed from its own files
    followed by the base files; every other key is as before. *)
Lemma buildSubDirs_ok c base l c' log :
  buildSubDirs c base l = (c', log, None) →
  log = [] ∧
  (∀ k, k ∈ l → ∃ own, subDirFiles c k = Ok own) ∧
  (∀ k own, k ∈ l → subDirFiles c k = Ok own → own ≠ [] →
     ∃ t, ParseFiles (FuncMap c) (own ++ base) = Ok t ∧
          templates c' !! k = Some t) ∧
  (∀ k, (k ∈ l → subDirFiles c k = Ok []) →
     templates c' !! k = templates c !! k).
Proof.
  revert c. induction l as [|sd rest IH]; intros c; simpl.
  - intros [= <- <-]. repeat split; auto; intros k; intros; set_solver.
  - fold (subDirFiles c sd).
    destruct (subDirFiles c sd) as [own|e] eqn:Hown; [|discriminate].
    destruct (Nat.eqb (List.length own) 0) eqn:Hlen.
    + apply length_zero in Hlen. subst own. intros B.
      destruct (IH _ B) as (L & A & I & U). split; [exact L|].
      split; [|split].
      * intros k Hk. apply elem_of_cons in Hk as [->|Hk]; eauto.
      * intros k own Hk Hf Hne. apply elem_of_cons in Hk as [->|Hk];
          [congruence | eauto].
      * intros k Hk. apply U. intros Hin. apply Hk. now right.
    + assert (Hne : own ≠ []).
      { intros ->. discriminate. }
      destruct (ParseFiles (FuncMap c) (own ++ base)) as [t|e] eqn:Hparse;
        [|discriminate].
      intros B. destruct (IH _ B) as (L & A & I & U).
      simpl in I. split; [exact L|]. split; [|split].
      * intros k Hk. apply elem_of_cons in Hk as [->|Hk]; [eauto|].
        destruct (A k Hk) as [o Ho].
        rewrite subDirFiles_set_templates in Ho. eauto.
      * intros k own' Hk Hf Hne'.
        destruct (decide (k ∈ rest)) as [Hin|Hnin].
        -- apply (I k own' Hin); [|exact Hne'].
           now rewrite subDirFiles_set_templates.
        -- apply elem_of_cons in Hk as [->|Hk]; [|contradiction].
           assert (own' = own) as -> by congruence.
           exists t. split; [exact Hparse|].
           rewrite U by (intros; contradiction).
           simpl. apply lookup_insert_eq.
      * intros k Hk. rewrite U.
        -- simpl. apply lookup_insert_ne. intros <-.
           assert (Ok own = Ok []) as [= ->] by (rewrite <- Hown; apply Hk; now left).
           contradiction.
        -- intros Hin. rewrite subDirFiles_set_templates. apply Hk. now right.
Qed.

(** The converse: when every subdirectory can be listed and every one
    that has files parses, the loop runs through without error. *)
Lemma buildSubDirs_succeeds c base l :
  (∀ k, k ∈ l → ∃ own, subDirFiles c k = Ok own ∧
                  (own = [] ∨
                   ∃ t, ParseFiles (FuncMap c) (own ++ base) = Ok t)) →
  ∃ c', buildSubDirs c base l = (c', [], None).
Proof.
  revert c. induction l as [|sd rest IH]; intros c Hall; simpl.
  - eauto.
  - fold (subDirFiles c sd).
    destruct (Hall sd) as (own & -> & Hp); [now left|].
    destruct (Nat.eqb (List.length own) 0) eqn:Hlen.
    + apply IH. intros k Hk. apply Hall. now right.
    + destruct Hp as [->|[t ->]]; [discriminate|].
      apply IH. intros k Hk. rewrite subDirFiles_set_templates.
      apply Hall. now right.
Qed.

(** A run without error over the first subdirectories is continued by the
    run over the others. *)
Lemma buildSubDirs_app c base l1 l2 c1 log1 :
  buildSubDirs c base l1 = (c1, log1, None) →
  buildSubDirs c base (l1 ++ l2) = buildSubDirs c1 base l2.
Proof.
  revert c. induction l1 as [|sd rest IH]; intros c; simpl.
  - now intros [= <- _].
  - destruct (buildPathsToFiles c (completePathToSubdDir c sd)) as [own|e];
      [|discriminate].
    destruct (Nat.eqb (List.length own) 0); [apply IH|].
    destruct (ParseFiles (FuncMap c) (own ++ base)) as [t|e]; [|discriminate].
    apply IH.
Qed.

(** The loop does not read [c.SubDirs] again. *)
Lemma buildSubDirs_set_SubDirs c base l l' :
  buildSubDirs (set_SubDirs l' c) base l
  = let '(c', log, err) := buildSubDirs c base l in
    (set_SubDirs l' c', log, err).
Proof.
  revert c. induction l as [|sd rest IH]; intros c; simpl; [reflexivity|].
  fold (subDirFiles (set_SubDirs l' c) sd). fold (subDirFiles c sd).
  rewrite subDirFiles_set_SubDirs.
  destruct (subDirFiles c sd) as [own|e]; [|reflexivity].
  destruct (Nat.eqb (List.length own) 0); [apply IH|].
  destruct (ParseFiles (FuncMap c) (own ++ base)) as [t|e]; [|reflexivity].
  exact (IH (set_templates (<[sd:=t]> (templates c)) c)).
Qed.

(** [Build] after an accepting [validate]. *)
Lemma Build_validated c cv :
  validate c = (cv, None) →
  Build c =
  let c0 := set_templates ∅ cv in
  match buildPathsToFiles cv (BasePath cv) with
  | Err err => (c0, [], Some err)
  | Ok baseFilePaths =>
      if Nat.ltb 0 (List.length baseFilePaths)
      then
        match ParseFiles (FuncMap cv) baseFilePaths with
        | Err innerErr =>
            (c0,
             ["templates.Build error parsing files at base path "
                +:+ error_Error innerErr],
             Some innerErr)
        | Ok t =>
            buildSubDirs (set_templates (<["" := t]> ∅) cv)
              baseFilePaths (SubDirs cv)
        end
      else buildSubDirs c0 baseFilePaths (SubDirs cv)
  end.
Proof.
  intros V. unfold Build. rewrite V. simpl.
  rewrite buildPathsToFiles_set_templates. reflexivity.
Qed.

Lemma length_pos {A} (l : list A) :
  Nat.ltb 0 (List.length l) = true ↔ l ≠ [].
Proof.
  destruct l; simpl; split; try discriminate; try reflexivity.
  intros N. now contradiction N.
Qed.

(** The registry [Build] starts the loop with. *)
Lemma Build_ok_inv c c' log :
  Build c = (c', log, None) →
  ∃ cv base reg0,
    validate c = (cv, None) ∧
    buildPathsToFiles cv (BasePath cv) = Ok base ∧
    ((base = [] ∧ reg0 = ∅) ∨
     (base ≠ [] ∧ ∃ t, ParseFiles (FuncMap cv) base = Ok t ∧
                       reg0 = <["" := t]> ∅)) ∧
    buildSubDirs (set_templates reg0 cv) base (SubDirs cv) = (c', log, None).
Proof.
  intros B. destruct (validate c) as [cv [e|]] eqn:V.
  { unfold Build in B. rewrite V in B. discriminate. }
  rewrite (Build_validated _ _ V) in B. simpl in B.
  destruct (buildPathsToFiles cv (BasePath cv)) as [base|e] eqn:Hbase;
    [|discriminate].
  exists cv, base.
  destruct (Nat.ltb 0 (List.length base)) eqn:Hlen.
  - apply length_pos in Hlen.
    destruct (ParseFiles (FuncMap cv) base) as [t|e] eqn:Hp; [|discriminate].
    exists (<["" := t]> ∅). repeat split; eauto.
  - exists ∅. repeat split; auto. left. split; [|reflexivity].
    destruct base; [reflexivity | discriminate].
Qed.

(** A configuration that differs from [cv] in its registry only is listed
    and parsed like [cv]. *)
Lemma same_settings c' cv m :
  c' = set_templates m cv →
  (∀ d, buildPathsToFiles c' d = buildPathsToFiles cv d) ∧
  (∀ k, subDirFiles c' k = subDirFiles cv k) ∧
  BasePath c' = BasePath cv ∧ SubDirs c' = SubDirs cv ∧
  FuncMap c' = FuncMap cv.
Proof.
  intros ->. repeat split.
  - intros d. apply buildPathsToFiles_set_templates.
  - intros k. apply subDirFiles_set_templates.
Qed.

(** A successful [Build] leaves the validated configuration with a new
    registry. *)
Lemma Build_ok_settings c c' log :
  Build c = (c', log, None) →
  ∃ cv, validate c = (cv, None) ∧ c' = set_templates (templates c') cv.
Proof.
  intros B. apply Build_ok_inv in B as (cv & base & reg0 & V & _ & _ & L).
  exists cv. split; [exact V|].
  apply buildSubDirs_settings in L. exact L.
Qed.

(** The starting registry holds at most the base group. *)
Lemma start_registry_lookup (base : list string) (reg0 : gmap string Template)
  (P : list string → result Template) k :
  ((base = [] ∧ reg0 = ∅) ∨
   (base ≠ [] ∧ ∃ t, P base = Ok t ∧ reg0 = <["" := t]> ∅)) →
  is_Some (reg0 !! k) ↔ k = "" ∧ base ≠ [].
Proof.
  intros [[-> ->]|(Hne & t & _ & ->)].
  - rewrite lookup_empty. split; [intros [? ?]; discriminate | tauto].
  - destruct (decide (k = "")) as [->|Hk].
    + rewrite lookup_insert_eq. split; [auto | eauto].
    + rewrite lookup_insert_ne, lookup_empty by congruence.
      split; [intros [? ?]; discriminate | tauto].
Qed.

(** [Build] after an accepting [validate] and a successful base step. *)
Lemma Build_loop c cv base reg0 :
  validate c = (cv, None) →
  buildPathsToFiles cv (BasePath cv) = Ok base →
  ((base = [] ∧ reg0 = ∅) ∨
   (base ≠ [] ∧ ∃ t, ParseFiles (FuncMap cv) base = Ok t ∧
                     reg0 = <["" := t]> ∅)) →
  Build c = buildSubDirs (set_templates reg0 cv) base (SubDirs cv).
Proof.
  intros V Hbase Hreg. rewrite (Build_validated _ _ V). simpl. rewrite Hbase.
  destruct Hreg as [[-> ->]|(Hne & t & Hp & ->)]; [reflexivity|].
  apply length_pos in Hne. rewrite Hne, Hp. reflexivity.
Qed.

(** The iteration that fails to parse stops the loop where it stands. *)
Lemma buildSubDirs_parse_error c base sd rest own e :
  subDirFiles c sd = Ok own → own ≠ [] →
  ParseFiles (FuncMap c) (own ++ base) = Err e →
  buildSubDirs c base (sd :: rest)
  = (c,
     ["templates.Build error parsing files at subdir '" +:+ sd +:+ "' "
        +:+ error_Error e],
     Some e).
Proof.
  intros Ho Hne Hp. simpl. fold (subDirFiles c sd). rewrite Ho.
  destruct own; [contradiction|]. simpl Nat.eqb. cbv iota.
  now rewrite Hp.
Qed.

End BuildFacts.

Section BuildClaims.

Context `{Host}.

Import Bytes BytesFacts gostrings TrimFacts filepath FilepathFacts.

(** C2.  For an on-disk configuration, a successful [Build] leaves the
    validated configuration (subdirectory names trimmed and in native form)
    with a registry whose keys are exactly: the empty string, if the base
    directory has a file with the extension; and each subdirectory name
    whose directory has such a file.  A subdirectory without such a file
    has no entry, and it raises no error: [Build] succeeds as soon as
    validation passes, every directory can be listed and every group that
    has files parses. *)
Theorem Build_registry_keys (c : Config) :
  UseEmbedded c = false →
  (∀ c' log, Build c = (c', log, None) →
     ∃ base,
       buildPathsToFiles c' (BasePath c') = Ok base ∧
       SubDirs c' = map (λ p, FromSlash goos (TrimSpace p)) (SubDirs c) ∧
       (∀ k, k ∈ dom (templates c') ↔
             (k = "" ∧ base ≠ []) ∨
             (k ∈ SubDirs c' ∧
              ∃ own, subDirFiles c' k = Ok own ∧ own ≠ [])) ∧
       (∀ k, k ∈ SubDirs c' → subDirFiles c' k = Ok [] →
             templates c' !! k = None))
  ∧
  (∀ cv base,
     validate c = (cv, None) →
     buildPathsToFiles cv (BasePath cv) = Ok base →
     (base = [] ∨ ∃ t, ParseFiles (FuncMap cv) base = Ok t) →
     (∀ k, k ∈ SubDirs cv →
        ∃ own, subDirFiles cv k = Ok own ∧
               (own = [] ∨
                ∃ t, ParseFiles (FuncMap cv) (own ++ base) = Ok t)) →
     ∃ c', Build c = (c', [], None)).
Proof.
  intros Hdisk. split.
  - intros c' log B.
    destruct (Build_ok_settings _ _ _ B) as (cv0 & V0 & Hc').
    apply Build_ok_inv in B as (cv & base & reg0 & V & Hbase & Hreg & L).
    assert (cv0 = cv) as -> by congruence.
    destruct (same_settings _ _ _ Hc') as (Sb & Sf & Sp & Sd & _).
    destruct (buildSubDirs_ok _ _ _ _ _ L) as (_ & A & I & U).
    assert (Hnorm : SubDirs cv
                    = map (λ p, FromSlash goos (TrimSpace p)) (SubDirs c)
                    ∧ Forall (λ p, TrimSpace p ≠ "") (SubDirs c)).
    { apply validate_inv in V as (_ & _ & _ & V). rewrite Hdisk in V.
      destruct V as [_ V]. apply validateSubDirs_inv in V as [-> F].
      split; [reflexivity|]. eapply Forall_impl; [exact F|]. simpl. tauto. }
    destruct Hnorm as [Hmap Hnb].
    assert (Start : ∀ k, is_Some (templates (set_templates reg0 cv) !! k)
                         ↔ k = "" ∧ base ≠ []).
    { intros k. simpl.
      apply (start_registry_lookup base reg0 (ParseFiles (FuncMap cv))).
      exact Hreg. }
    exists base. rewrite Sb, Sp, Sd. split; [exact Hbase|].
    split; [exact Hmap|]. split.
    + intros k. rewrite elem_of_dom. rewrite Sf. split.
      * intros Hk. destruct (decide (k ∈ SubDirs cv)) as [Hin|Hnin].
        -- destruct (A k Hin) as [own Ho].
           rewrite subDirFiles_set_templates in Ho.
           destruct own as [|p own].
           ++ left. apply Start. rewrite <- U; [exact Hk|].
              intros _. now rewrite subDirFiles_set_templates.
           ++ right. split; [exact Hin|]. exists (p :: own). split; [exact Ho|].
              discriminate.
        -- left. apply Start. rewrite <- U; [exact Hk|]. intros; contradiction.
      * intros [Hk|(Hin & own & Ho & Hne)].
        -- apply Start in Hk. destruct (decide (k ∈ SubDirs cv)) as [Hin|Hnin].
           ++ destruct (A k Hin) as [own Ho]. destruct own as [|p own].
              ** rewrite U; [exact Hk|]. intros _. exact Ho.
              ** destruct (I k (p :: own) Hin Ho) as (t & _ & ->);
                   [discriminate | eauto].
           ++ rewrite U; [exact Hk|]. intros; contradiction.
        -- destruct (I k own Hin) as (t & _ & ->); eauto.
           now rewrite subDirFiles_set_templates.
    + intros k Hin Hempty. rewrite Sf in Hempty.
      rewrite U by (intros _; now rewrite subDirFiles_set_templates).
      destruct (templates (set_templates reg0 cv) !! k) eqn:E; [|reflexivity].
      exfalso. assert (Hk : k = "" ∧ base ≠ []) by (apply Start; eauto).
      destruct Hk as [-> _]. rewrite Hmap in Hin.
      apply list_elem_of_fmap in Hin as (p & Hp & Hpin).
      rewrite Forall_forall in Hnb. specialize (Hnb p Hpin).
      destruct (normalized_fixed p Hnb) as (_ & Hq & _). simpl in Hq.
      congruence.
  - intros cv base V Hbase Hparse Hall.
    rewrite (Build_validated _ _ V). simpl. rewrite Hbase.
    destruct (Nat.ltb 0 (List.length base)) eqn:Hlen.
    + apply length_pos in Hlen. destruct Hparse as [->|[t ->]]; [contradiction|].
      apply buildSubDirs_succeeds. intros k Hk.
      rewrite subDirFiles_set_templates. now apply Hall.
    + apply buildSubDirs_succeeds. intros k Hk.
      rewrite subDirFiles_set_templates. now apply Hall.
Qed.

(** C6.  After a successful [Build], for every subdirectory that has at
    least one file with the extension, the registry holds, under the
    subdirectory's name (as [validate] left it in [SubDirs]), the group
    parsed from the subdirectory's own file paths followed by the
    base-directory file paths. *)
Theorem Build_merges_base_after_own (c c' : Config) (log : list string) :
  Build c = (c', log, None) →
  ∃ base,
    buildPathsToFiles c' (BasePath c') = Ok base ∧
    ∀ k own,
      k ∈ SubDirs c' → subDirFiles c' k = Ok own → own ≠ [] →
      ∃ t, ParseFiles (FuncMap c') (own ++ base) = Ok t ∧
           templates c' !! k = Some t.
Proof.
  intros B.
  destruct (Build_ok_settings _ _ _ B) as (cv0 & V0 & Hc').
  apply Build_ok_inv in B as (cv & base & reg0 & V & Hbase & Hreg & L).
  assert (cv0 = cv) as -> by congruence.
  destruct (same_settings _ _ _ Hc') as (Sb & Sf & Sp & Sd & Sm).
  destruct (buildSubDirs_ok _ _ _ _ _ L) as (_ & _ & I & _).
  exists base. rewrite Sb, Sp, Sd, Sm. split; [exact Hbase|].
  intros k own Hin Ho Hne. rewrite Sf in Ho.
  apply (I k own Hin); [|exact Hne].
  now rewrite subDirFiles_set_templates.
Qed.

(** C1 (amended).  A compile error leaves in the registry nothing from
    before the call, and the groups compiled earlier in the same call: when
    the base group fails to parse, the registry is empty; when the group of
    a subdirectory fails to parse, the registry is the one [Build] produces
    for the same validated configuration with an empty registry and with
    only the subdirectories that precede the failing one. *)
Theorem Build_compile_error_keeps_earlier_groups (c cv : Config)
  (base : list string) :
  validate c = (cv, None) →
  buildPathsToFiles cv (BasePath cv) = Ok base →
  (∀ e, base ≠ [] → ParseFiles (FuncMap cv) base = Err e →
     ∃ log, Build c = (set_templates ∅ cv, log, Some e))
  ∧
  (∀ e done sd rest own c1 log1,
     SubDirs cv = done ++ sd :: rest →
     Build (set_SubDirs done (set_templates ∅ cv)) = (c1, log1, None) →
     subDirFiles cv sd = Ok own → own ≠ [] →
     ParseFiles (FuncMap cv) (own ++ base) = Err e →
     ∃ c' log, Build c = (c', log, Some e) ∧ templates c' = templates c1).
Proof.
  intros V Hbase. split.
  - intros e Hne Hp. rewrite (Build_validated _ _ V). simpl.
    rewrite Hbase. apply length_pos in Hne. rewrite Hne, Hp. eauto.
  - intros e done sd rest own c1 log1 Hsub Bd Ho Hne Hp.
    pose proof (validate_prefix c cv done (sd :: rest) ∅ V Hsub) as Vd.
    apply Build_ok_inv in Bd as (cvd & based & reg0 & Vd' & Hbd & Hreg & L).
    assert (cvd = set_SubDirs done (set_templates ∅ cv)) as -> by congruence.
    rewrite buildPathsToFiles_set_SubDirs, buildPathsToFiles_set_templates
      in Hbd.
    simpl in Hbd. assert (based = base) as -> by congruence.
    simpl in Hreg.
    change (set_templates reg0 (set_SubDirs done (set_templates ∅ cv)))
      with (set_SubDirs done (set_templates reg0 cv)) in L.
    simpl in L. rewrite buildSubDirs_set_SubDirs in L.
    destruct (buildSubDirs (set_templates reg0 cv) base done)
      as [[c1' l1] e1] eqn:L'.
    injection L as <- <- ->.
    rewrite (Build_loop c cv base reg0 V Hbase Hreg), Hsub.
    rewrite (buildSubDirs_app _ _ _ _ _ _ L').
    pose proof (buildSubDirs_settings _ _ _ _ _ _ L') as Hc1.
    destruct (same_settings _ _ _ Hc1) as (_ & Sf & _ & _ & Sm).
    rewrite (buildSubDirs_parse_error c1' base sd rest own e).
    + eexists _, _. split; reflexivity.
    + rewrite Sf, subDirFiles_set_templates. exact Ho.
    + exact Hne.
    + rewrite Sm. exact Hp.
Qed.

End BuildClaims.

(** C1, as first stated, fails: with subdirectories [app], [bad] and [help],
    where the group of [bad] does not parse, [Build] returns the parse
    error and yet leaves the base group and the group of [app] in the
    registry, from which [Show] renders. *)
Lemma Build_compile_error_leaves_groups :
  let c := Example.onDisk posix ["app"; "bad"; "help"] in
  let c' := fst (fst (Build c)) in
  snd (Build c) = Some (HostError false "template: broken.html:1: unexpected EOF")
  ∧ templates c' !! "" = Some ["templates/footer.html"; "templates/header.html"]
  ∧ templates c' !! "app"
    = Some ["templates/app/index.html"; "templates/app/users.html";
            "templates/footer.html"; "templates/header.html"]
  ∧ Show c' [] "app" "index" tt = ([Written "<html>index.html</html>"], []).
Proof. vm_compute. repeat split; reflexivity. Qed.

Lemma Build_compile_error_keeps_earlier_groups_witness :
  let c := Example.onDisk posix ["app"; "bad"; "help"] in
  let c1 := fst (fst (Build (Example.onDisk posix ["app"]))) in
  ∃ c' log,
    Build c
    = (c', log,
       Some (HostError false "template: broken.html:1: unexpected EOF"))
    ∧ templates c' = templates c1.
Proof.
  intros c c1.
  assert (V : validate c = (c, None)) by (vm_compute; reflexivity).
  assert (Hbase : buildPathsToFiles c (BasePath c)
                  = Ok ["templates/footer.html"; "templates/header.html"])
    by (vm_compute; reflexivity).
  destruct (Build_compile_error_keeps_earlier_groups c c _ V Hbase) as [_ W].
  apply (W _ ["app"] "bad" ["help"] ["templates/bad/broken.html"]
           (set_SubDirs ["app"] c1) []).
  - reflexivity.
  - vm_compute. reflexivity.
  - vm_compute. reflexivity.
  - discriminate.
  - vm_compute. reflexivity.
Defined.

Lemma Build_registry_keys_witness :
  let c := Example.onDisk posix [" app "; "help"] in
  let c' := fst (fst (Build c)) in
  UseEmbedded c = false ∧
  Build c = (c', [], None) ∧
  SubDirs c' = ["app"; "help"] ∧
  "" ∈ dom (templates c') ∧
  "app" ∈ dom (templates c') ∧
  templates c' !! "help" = None.
Proof.
  intros c c'.
  assert (B : Build c = (c', [], None)) by (vm_compute; reflexivity).
  destruct (Build_registry_keys c eq_refl) as [K _].
  destruct (K c' [] B) as (base & Hb & Hs & Hdom & Hnone).
  assert (Hsub : SubDirs c' = ["app"; "help"]) by (vm_compute; reflexivity).
  split; [reflexivity|]. split; [exact B|]. split; [exact Hsub|].
  assert (base = ["templates/footer.html"; "templates/header.html"]) as ->.
  { vm_compute in Hb. now injection Hb. }
  split; [|split].
  - apply Hdom. left. split; [reflexivity | discriminate].
  - apply Hdom. right. rewrite Hsub. split; [repeat constructor|].
    exists ["templates/app/index.html"; "templates/app/users.html"].
    split; [vm_compute; reflexivity | discriminate].
  - apply Hnone; [rewrite Hsub; repeat constructor | vm_compute; reflexivity].
Defined.

Lemma Build_merges_base_after_own_witness :
  let c := Example.onDisk windows ["app"; "help"] in
  let c' := fst (fst (Build c)) in
  Build c = (c', [], None) ∧
  ∃ t, ParseFiles (FuncMap c')
         (["templates\app\index.html"; "templates\app\users.html"]
          ++ ["templates\footer.html"; "templates\header.html"]) = Ok t
       ∧ templates c' !! "app" = Some t.
Proof.
  intros c c'.
  assert (B : Build c = (c', [], None)) by (vm_compute; reflexivity).
  split; [exact B|].
  destruct (Build_merges_base_after_own c c' [] B) as (base & Hb & M).
  assert (base = ["templates\footer.html"; "templates\header.html"]) as ->.
  { vm_compute in Hb. now injection Hb. }
  apply M.
  - assert (SubDirs c' = ["app"; "help"]) as -> by (vm_compute; reflexivity).
    repeat constructor.
  - vm_compute. reflexivity.
  - discriminate.
Defined.

(** ** Rendering *)

Section ShowClaims.

Context `{Host}.

Import Bytes BytesFacts gostrings filepath FilepathFacts.

(** C3.  When the group key is not in the registry, [Show] executes no
    template at all: the only thing it does is report, with [http.Error],
    status 500 (internal server error) on the writer.  When the group is
    there and executing the template fails, [Show] reports status 404 (not
    found) on the writer, after whatever output the engine had written, and
    logs the error.  [Show] is a total function: it returns in both cases. *)
Theorem Show_reports_failures (c : Config) (w : ResponseWriter)
  (subdir templateName : string) (injectedData : Any) :
  (templates c !! subdir = None →
   Show c w subdir templateName injectedData
   = (w ++ [http_Error ("templates.Show: invalid subdirectory '" +:+ subdir
                          +:+ "'") 500%Z],
      []))
  ∧
  (∀ t chunks err,
     templates c !! subdir = Some t →
     ExecuteTemplate t (nameWithExtension c templateName)
       (showData c injectedData) = (chunks, Some err) →
     Show c w subdir templateName injectedData
     = (w ++ map Written chunks ++ [http_Error (error_Error err) 404%Z],
        ["templates.Show: error during execute " +:+ error_Error err])).
Proof.
  split.
  - intros Hnone. unfold Show. now rewrite Hnone.
  - intros t chunks err Hsome Hexec. unfold Show. rewrite Hsome, Hexec.
    simpl. now rewrite <- app_assoc.
Qed.

(** C9.  [Show] appends ["." + Extension] to the template name only when
    the name has no dot in its final path element.  A name that has one
    (as [report.backup]) is handed to the engine unchanged, whatever
    follows the dot and whatever the configured extension is. *)
Theorem Show_appends_extension_only_without_dot (c : Config)
  (w : ResponseWriter) (subdir templateName : string) (injectedData : Any)
  (t : Template) :
  templates c !! subdir = Some t →
  (dotSuffixed goos templateName →
   Show c w subdir templateName injectedData
   = reportExecution w
       (ExecuteTemplate t templateName (showData c injectedData)))
  ∧
  (¬ dotSuffixed goos templateName →
   Show c w subdir templateName injectedData
   = reportExecution w
       (ExecuteTemplate t (templateName +:+ "." +:+ Extension c)
          (showData c injectedData)))
  ∧ dotSuffixed goos "report.backup".
Proof.
  intros Hsome. unfold Show, nameWithExtension. rewrite Hsome.
  split; [|split].
  - intros D. destruct (decide _) as [E|_]; [|reflexivity].
    apply Ext_empty_iff in E. contradiction.
  - intros D. destruct (decide _) as [_|NE]; [reflexivity|].
    exfalso. apply NE. now apply Ext_empty_iff.
  - exists (of_string "report"), (of_string "backup").
    split; [reflexivity|]. destruct goos; repeat constructor.
Qed.

End ShowClaims.

Lemma Show_reports_failures_witness :
  let c := fst (fst (Build (Example.onDisk posix ["app"; "help"]))) in
  Show c [] "help" "index" tt
  = ([http_Error "templates.Show: invalid subdirectory 'help'" 500%Z], [])
  ∧ Show c [] "app" "missing" tt
    = ([http_Error "html/template: missing.html is undefined" 404%Z],
       ["templates.Show: error during execute html/template: missing.html is undefined"]).
Proof.
  intros c.
  destruct (Show_reports_failures c [] "help" "index" tt) as [W1 _].
  destruct (Show_reports_failures c [] "app" "missing" tt) as [_ W2].
  split.
  - apply W1. vm_compute. reflexivity.
  - apply (W2 ["templates/app/index.html"; "templates/app/users.html";
               "templates/footer.html"; "templates/header.html"] []
              (HostError false "html/template: missing.html is undefined")).
    + vm_compute. reflexivity.
    + vm_compute. reflexivity.
Defined.

Lemma Show_appends_extension_only_without_dot_witness :
  let c := fst (fst (Build (Example.onDisk posix ["app"; "help"]))) in
  Show c [] "app" "report.backup" tt
  = ([http_Error "html/template: report.backup is undefined" 404%Z],
     ["templates.Show: error during execute html/template: report.backup is undefined"])
  ∧ Show c [] "app" "index" tt = ([Written "<html>index.html</html>"], []).
Proof.
  intros c.
  pose (t := ["templates/app/index.html"; "templates/app/users.html";
              "templates/footer.html"; "templates/header.html"]).
  assert (Hsome : templates c !! "app" = Some t) by (vm_compute; reflexivity).
  destruct (Show_appends_extension_only_without_dot
              c [] "app" "report.backup" tt t Hsome) as (W1 & _ & D).
  destruct (Show_appends_extension_only_without_dot
              c [] "app" "index" tt t Hsome) as (_ & W2 & _).
  split.
  - rewrite (W1 D). vm_compute. reflexivity.
  - rewrite W2; [vm_compute; reflexivity|].
    apply FilepathFacts.Ext_empty_iff. vm_compute. reflexivity.
Defined.

(** ** Helper functions *)

Module FuncFacts.

Import templatefuncs.

(** A date that [time.Parse] rejects comes back as it was given. *)
Lemma FuncDateReformat_rejected time_Format date format :
  time_Parse_ymd date = None →
  FuncDateReformat time_Format date format = date.
Proof. unfold FuncDateReformat. now intros ->. Qed.

(** January has 31 days: the layout is matched, the day is out of range. *)
Lemma January_32_rejected : time_Parse_ymd "2020-01-32" = None.
Proof.
  assert (Y : getyear (Bytes.of_string "2020-01-32")
              = Some (2020%Z, Bytes.of_string "-01-32")) by reflexivity.
  unfold time_Parse_ymd. rewrite Y. simpl. reflexivity.
Qed.

(** Sums that fit the width are not wrapped. *)
Lemma FuncAddInt_small intSize x y :
  (0 < intSize)%Z →
  (- 2 ^ (intSize - 1) <= x + y < 2 ^ (intSize - 1))%Z →
  FuncAddInt intSize x y = (x + y)%Z.
Proof.
  intros Hs Hr. unfold FuncAddInt, wrapInt.
  assert (E : (2 ^ intSize = 2 * 2 ^ (intSize - 1))%Z).
  { rewrite <- Z.pow_succ_r by lia. f_equal. lia. }
  rewrite Z.mod_small by lia. lia.
Qed.

End FuncFacts.

(** C8.  [addInt] applied to 3 and 4 returns 7, for either width of [int];
    and [dateReformat] applied to ["2020-01-32"], which is not a date of
    the calendar, returns that string unchanged for every target format. *)
Theorem helper_funcs_scenario :
  templatefuncs.FuncAddInt 32 3 4 = 7%Z ∧
  templatefuncs.FuncAddInt 64 3 4 = 7%Z ∧
  ∀ (time_Format : templatefuncs.Time → string → string) (format : string),
    templatefuncs.FuncDateReformat time_Format "2020-01-32" format
    = "2020-01-32".
Proof.
  split; [|split].
  - apply FuncFacts.FuncAddInt_small; [lia|]. split; [|reflexivity].
    intros E. discriminate E.
  - apply FuncFacts.FuncAddInt_small; [lia|]. split; [|reflexivity].
    intros E. discriminate E.
  - intros time_Format format.
    apply FuncFacts.FuncDateReformat_rejected, FuncFacts.January_32_rejected.
Qed.

(* ================================================================== *)
(** * Further properties of the package *)

(** ** More about validation *)

Section ValidateMoreFacts.

Context `{Host}.

Import Bytes BytesFacts gostrings TrimFacts filepath FilepathFacts.

Lemma statNotExist_IsNotExist path e :
  statNotExist path = Some e → os_IsNotExist e = true.
Proof.
  unfold statNotExist. destruct (os_Stat path) as [e'|]; [|discriminate].
  destruct (os_IsNotExist e') eqn:E; [|discriminate]. now intros [= <-].
Qed.

(** However the loop of [validate] ends, the entries it has passed are
    normalized and the others are as they were. *)
Lemma validateSubDirs_shape basePath (subDirs : list string) :
  ∃ n, fst (validateSubDirs basePath subDirs)
       = map (λ p, FromSlash goos (TrimSpace p)) (take n subDirs)
         ++ drop n subDirs.
Proof.
  induction subDirs as [|p0 rest [n IH]]; [now exists 0|]. simpl.
  destruct (decide (TrimSpace p0 = "")); [now exists 0|].
  destruct (statNotExist _); [now exists 0|].
  destruct (validateSubDirs basePath rest) as [rest' err]. simpl in *.
  exists (S n). simpl. now rewrite IH.
Qed.

Lemma validateSubDirs_complete basePath (subDirs : list string) :
  Forall (λ p, TrimSpace p ≠ "" ∧
               statNotExist
                 (filepath_Join basePath (FromSlash goos (TrimSpace p)))
               = None) subDirs →
  validateSubDirs basePath subDirs
  = (map (λ p, FromSlash goos (TrimSpace p)) subDirs, None).
Proof.
  induction 1 as [|p0 rest [Hne Hstat] _ IH]; [reflexivity|]. simpl.
  destruct (decide (TrimSpace p0 = "")); [contradiction|].
  now rewrite Hstat, IH.
Qed.

Lemma validateSubDirs_error basePath (subDirs subDirs' : list string) e :
  validateSubDirs basePath subDirs = (subDirs', Some e) →
  e = ErrInvalidSubDir ∨ os_IsNotExist e = true.
Proof.
  revert subDirs'. induction subDirs as [|p0 rest IH]; intros subDirs'; simpl;
    [discriminate|].
  destruct (decide (TrimSpace p0 = "")); [intros [= _ <-]; now left|].
  destruct (statNotExist _) as [e'|] eqn:Hstat.
  - intros [= _ <-]. right. eapply statNotExist_IsNotExist, Hstat.
  - destruct (validateSubDirs basePath rest) as [rest' err].
    intros [= _ ->]. eapply IH. reflexivity.
Qed.

(** The fields [validate] leaves alone, and what it makes of the paths. *)
Lemma validate_frame (c : Config) :
  let c' := fst (validate c) in
  Development c' = Development c ∧
  UseLocalFiles c' = UseLocalFiles c ∧
  UseEmbedded c' = UseEmbedded c ∧
  EmbeddedFS c' = EmbeddedFS c ∧
  FuncMap c' = FuncMap c ∧
  CacheBustingFilePairs c' = CacheBustingFilePairs c ∧
  templates c' = templates c ∧
  BasePath c' = TrimSpace (BasePath c) ∧
  ∃ n, SubDirs c'
       = map (λ p, FromSlash goos (TrimSpace p)) (take n (SubDirs c))
         ++ drop n (SubDirs c).
Proof.
  destruct c as [dev ulf bp sds ext ue efs fm cb tm].
  unfold validate. simpl.
  destruct (decide (TrimSpace bp = "")) as [Hb|Hb]; simpl.
  { repeat split. now exists 0. }
  destruct ue; simpl.
  - destruct (decide (TrimSpace ext = "")) as [He|He]; simpl;
      destruct (embed_isZero efs); simpl; repeat split; now exists 0.
  - destruct (statNotExist (TrimSpace bp)); simpl.
    { repeat split. now exists 0. }
    destruct (validateSubDirs_shape (TrimSpace bp) sds) as [k Hk].
    destruct (validateSubDirs (TrimSpace bp) sds) as [sds' err].
    simpl in Hk. subst sds'.
    destruct err; simpl; [repeat split; now exists k|].
    destruct (decide (TrimSpace ext = "")) as [He|He]; simpl; repeat split;
      now exists k.
Qed.

End ValidateMoreFacts.

Section ValidateMore.

Context `{Host}.

Import Bytes BytesFacts gostrings TrimFacts filepath FilepathFacts.


(** [validate] accepts an on-disk configuration exactly when the trimmed
    base path is not blank and [os.Stat] does not report it missing, and
    every subdirectory name is non-blank and [os.Stat] does not report its
    directory missing.  An empty subdirectory list is accepted, and so is a
    path on which [os.Stat] fails with another error than "does not
    exist". *)
Theorem validate_onDisk_accepts_iff (c : Config) :
  UseEmbedded c = false →
  (∃ c', validate c = (c', None)) ↔
  TrimSpace (BasePath c) ≠ "" ∧
  statNotExist (TrimSpace (BasePath c)) = None ∧
  Forall (λ p, TrimSpace p ≠ "" ∧
               statNotExist
                 (filepath_Join (TrimSpace (BasePath c))
                    (FromSlash goos (TrimSpace p))) = None) (SubDirs c).
Proof.
  intros Hdisk. split.
  - intros [c' V]. apply validate_inv in V as (_ & Hbp & _ & V).
    rewrite Hdisk in V. destruct V as [Hstat V].
    apply validateSubDirs_inv in V as [_ F]. auto.
  - intros (Hbp & Hstat & F).
    destruct c as [dev ulf bp sds ext ue efs fm cb tm]. simpl in *.
    subst ue. unfold validate. simpl.
    destruct (decide (TrimSpace bp = "")); [contradiction|].
    rewrite Hstat, (validateSubDirs_complete _ _ F). simpl.
    destruct (decide (TrimSpace ext = "")); simpl; eauto.
Qed.

(** [validate] accepts an embedded configuration exactly when the trimmed
    base path is not blank and an embedded file system was given; it
    neither checks nor changes the subdirectory names. *)
Theorem validate_embedded_accepts_iff (c : Config) :
  UseEmbedded c = true →
  ((∃ c', validate c = (c', None)) ↔
   TrimSpace (BasePath c) ≠ "" ∧ embed_isZero (EmbeddedFS c) = false) ∧
  (∀ c', validate c = (c', None) → SubDirs c' = SubDirs c).
Proof.
  intros Hemb. split; [split|].
  - intros [c' V]. apply validate_inv in V as (_ & Hbp & _ & V).
    rewrite Hemb in V. tauto.
  - intros (Hbp & Hz).
    destruct c as [dev ulf bp sds ext ue efs fm cb tm]. simpl in *.
    subst ue. unfold validate. simpl.
    destruct (decide (TrimSpace bp = "")); [contradiction|].
    simpl. destruct (decide (TrimSpace ext = "")); simpl; rewrite Hz; eauto.
  - intros c' V. apply validate_inv in V as (_ & _ & _ & V).
    rewrite Hemb in V. tauto.
Qed.

(** The errors of [validate], in the order of its checks: a blank base
    path gives [ErrBasePathNotSet] whatever else is wrong; otherwise an
    on-disk configuration fails with [ErrInvalidSubDir] or with the
    "does not exist" error of [os.Stat], and an embedded one with
    [ErrNoEmbeddedFilesProvided], only when no file system was given.
    [ErrNoSubDirsProvided] is never returned. *)
Theorem validate_errors (c : Config) :
  (TrimSpace (BasePath c) = "" →
   snd (validate c) = Some ErrBasePathNotSet)
  ∧
  (∀ c' e, validate c = (c', Some e) →
     e ≠ ErrNoSubDirsProvided ∧
     ((TrimSpace (BasePath c) = "" ∧ e = ErrBasePathNotSet) ∨
      (TrimSpace (BasePath c) ≠ "" ∧ UseEmbedded c = false ∧
       (e = ErrInvalidSubDir ∨ os_IsNotExist e = true)) ∨
      (TrimSpace (BasePath c) ≠ "" ∧ UseEmbedded c = true ∧
       e = ErrNoEmbeddedFilesProvided ∧
       embed_isZero (EmbeddedFS c) = true))).
Proof.
  destruct c as [dev ulf bp sds ext ue efs fm cb tm].
  unfold validate. simpl. split.
  - intros E. destruct (decide (TrimSpace bp = "")); [reflexivity|].
    contradiction.
  - intros c' e.
    destruct (decide (TrimSpace bp = "")) as [Hb|Hb]; simpl.
    { intros [= _ <-]. split; [discriminate | auto]. }
    destruct ue; simpl.
    + destruct (decide (TrimSpace ext = "")); simpl;
        (destruct (embed_isZero efs) eqn:Hz; [|discriminate]);
        intros [= _ <-]; (split; [discriminate|]); right; right; auto.
    + assert (G : ∀ e0, e0 = ErrInvalidSubDir ∨ os_IsNotExist e0 = true →
                  e0 ≠ ErrNoSubDirsProvided).
      { intros e0 [E|E] N; subst e0; discriminate. }
      destruct (statNotExist (TrimSpace bp)) as [e'|] eqn:Hstat.
      { intros [= _ <-]. apply statNotExist_IsNotExist in Hstat.
        split; [apply G; auto|]. right; left. auto. }
      destruct (validateSubDirs (TrimSpace bp) sds) as [sds' err] eqn:Hv.
      simpl. destruct err as [e'|].
      * intros [= _ <-]. apply validateSubDirs_error in Hv.
        split; [apply G; auto|]. right; left. auto.
      * destruct (decide (TrimSpace ext = "")); simpl; discriminate.
Qed.

(** After an accepting [validate] the extension is never blank: it is the
    given extension, trimmed, or ["html"] when that is blank; trimming it
    again changes nothing. *)
Theorem validate_sets_extension (c c' : Config) :
  validate c = (c', None) →
  Extension c' ≠ "" ∧
  TrimSpace (Extension c') = Extension c' ∧
  (TrimSpace (Extension c) = "" → Extension c' = "html") ∧
  (TrimSpace (Extension c) ≠ "" → Extension c' = TrimSpace (Extension c)).
Proof.
  intros V. apply validate_inv in V as (_ & _ & Hext & _).
  pose proof (extension_fixed (Extension c)) as [Ex1 Ex2].
  simpl in Ex1, Ex2. rewrite <- Hext in Ex1, Ex2.
  repeat split; auto; intros E; rewrite Hext;
    destruct (decide (TrimSpace (Extension c) = "")); auto; contradiction.
Qed.

End ValidateMore.

Lemma validate_onDisk_accepts_iff_witness :
  (∃ c', validate (Example.onDisk posix [" app "; "help"]) = (c', None)) ∧
  ¬ (∃ c', validate (Example.onDisk posix ["app"; "nope"]) = (c', None)).
Proof.
  split.
  - apply (validate_onDisk_accepts_iff
             (Example.onDisk posix [" app "; "help"]) eq_refl).
    split; [vm_compute; discriminate|]. split; [vm_compute; reflexivity|].
    repeat constructor; vm_compute; discriminate.
  - intros E.
    apply (validate_onDisk_accepts_iff
             (Example.onDisk posix ["app"; "nope"]) eq_refl) in E
      as (_ & _ & F).
    inversion F as [|? ? _ F']. inversion F' as [|? ? [_ S] _].
    vm_compute in S. discriminate S.
Defined.

Lemma validate_embedded_accepts_iff_witness :
  let c := Example.embedded posix [" "; "no such directory"] in
  (∃ c', validate c = (c', None)) ∧
  ∀ c', validate c = (c', None) → SubDirs c' = [" "; "no such directory"].
Proof.
  intros c.
  destruct (validate_embedded_accepts_iff c eq_refl) as [A S].
  split; [|exact S].
  apply A. split; [vm_compute; discriminate | reflexivity].
Defined.

Lemma validate_errors_witness :
  let blank := Example.onDisk posix [" "; "nope"] in
  snd (validate (set_BasePath "  " blank)) = Some ErrBasePathNotSet ∧
  snd (validate blank) = Some ErrInvalidSubDir ∧
  snd (validate blank) ≠ Some ErrNoSubDirsProvided.
Proof.
  intros blank.
  destruct (validate_errors (set_BasePath "  " blank)) as [B _].
  destruct (validate_errors blank) as [_ E].
  split; [apply B; vm_compute; reflexivity|].
  split; [vm_compute; reflexivity|].
  destruct (E (fst (validate blank)) ErrInvalidSubDir) as [N _];
    [vm_compute; reflexivity|].
  vm_compute. intros [= ].
Defined.

Lemma validate_sets_extension_witness :
  let c := set_Extension "  " (Example.onDisk posix ["app"]) in
  Extension (fst (validate c)) = "html".
Proof.
  intros c.
  destruct (validate_sets_extension c (fst (validate c))) as (_ & _ & D & _).
  - vm_compute. reflexivity.
  - apply D. vm_compute. reflexivity.
Defined.

(** ** More about discovery *)

Section DiscoveryMoreFacts.

Context `{Host}.

Import Bytes BytesFacts gostrings filepath FilepathFacts.

(** What [filepath.Ext] returns is empty, or a dot followed by bytes that
    are neither dots nor separators. *)
Lemma extFrom_shape os r acc :
  Forall (λ ch, ch ≠ dot ∧ IsPathSeparator os ch = false) acc →
  extFrom os r acc = [] ∨
  ∃ suf, extFrom os r acc = dot :: suf ∧
         Forall (λ ch, ch ≠ dot ∧ IsPathSeparator os ch = false) suf.
Proof.
  revert acc. induction r as [|c r IH]; intros acc Hacc; simpl; [now left|].
  destruct (IsPathSeparator os c) eqn:Es; [now left|].
  destruct (eqb c dot) eqn:Ed.
  - apply eqb_eq' in Ed. subst c. right. eauto.
  - apply IH. constructor; [|exact Hacc]. split; [|exact Es].
    intros ->. now rewrite Ascii.eqb_refl in Ed.
Qed.

Lemma Ext_shape os path :
  Ext os path = "" ∨
  ∃ suf, Ext os path = String dot suf ∧
         Forall (λ ch, ch ≠ dot ∧ IsPathSeparator os ch = false)
           (of_string suf).
Proof.
  unfold Ext.
  destruct (extFrom_shape os (rev (of_string path)) []) as [->|(suf & -> & F)];
    [constructor | now left |].
  right. exists (to_string suf). simpl. now rewrite of_to_string.
Qed.

Lemma ToSlash_idem os p : ToSlash os (ToSlash os p) = ToSlash os p.
Proof.
  destruct os; unfold ToSlash; simpl; [reflexivity|].
  apply of_string_inj. rewrite !ReplaceByte_bytes, map_map.
  apply map_ext. intros b.
  destruct (eqb b backslash) eqn:E; [reflexivity | now rewrite E].
Qed.

End DiscoveryMoreFacts.

Section DiscoveryMore.

Context `{Host}.

Import Bytes BytesFacts gostrings filepath FilepathFacts.

(** An extension that contains a dot (as [".tmpl"] or ["tar.gz"]) or a path
    separator of the host matches no file: discovery then returns the empty
    list for every directory that can be listed. *)
Theorem extension_with_dot_matches_nothing (c : Config) (dir : string)
  (files : list DirEntry) :
  (∃ ch, In ch (of_string (Extension c)) ∧
         (ch = dot ∨ IsPathSeparator goos ch = true)) →
  readFunc c (listedDirectory c dir) = Ok files →
  buildPathsToFiles c dir = Ok [].
Proof.
  intros (ch & Hin & Hch) Hread. unfold buildPathsToFiles. rewrite Hread.
  rewrite collectPaths_filter, filter_none; [reflexivity|].
  apply Forall_forall. intros f _ [_ E].
  destruct (Ext_shape goos (Name f)) as [E0|(suf & E1 & F)].
  - rewrite E0 in E. discriminate E.
  - rewrite E1 in E. change ("." +:+ Extension c) with (String dot (Extension c)) in E.
    injection E as ->. rewrite Forall_forall in F.
    apply list_elem_of_In in Hin.
    destruct (F ch Hin) as [Hd Hs]. destruct Hch; congruence.
Qed.

(** In embedded mode discovery gives the same result for a directory path
    and for its slash-normalized form; hence, in either mode, the files
    [Build] finds for a subdirectory are those discovered at the join of
    the base path and the subdirectory name. *)
Theorem discovery_absorbs_ToSlash (c : Config) :
  (UseEmbedded c = true →
   ∀ dir, buildPathsToFiles c (ToSlash goos dir) = buildPathsToFiles c dir)
  ∧
  (∀ subDir,
     subDirFiles c subDir
     = buildPathsToFiles c (filepath_Join (BasePath c) subDir)).
Proof.
  assert (A : UseEmbedded c = true →
              ∀ dir, buildPathsToFiles c (ToSlash goos dir)
                     = buildPathsToFiles c dir).
  { intros Hemb dir. unfold buildPathsToFiles, listedDirectory.
    rewrite Hemb. now rewrite ToSlash_idem. }
  split; [exact A|].
  intros subDir. unfold subDirFiles, completePathToSubdDir.
  destruct (UseEmbedded c) eqn:Hemb; [now apply A | reflexivity].
Qed.

End DiscoveryMore.

Lemma extension_with_dot_matches_nothing_witness :
  let c := set_Extension ".html" (Example.onDisk posix ["app"]) in
  buildPathsToFiles c "templates/app" = Ok [].
Proof.
  intros c.
  apply (extension_with_dot_matches_nothing c "templates/app"
           [ mkDirEntry "index.html" false; mkDirEntry "partials" true;
             mkDirEntry "report.html.bak" false;
             mkDirEntry "users.html" false ]).
  - exists filepath.dot. split; [left; reflexivity | left; reflexivity].
  - vm_compute. reflexivity.
Defined.

Lemma discovery_absorbs_ToSlash_witness :
  let c := Example.embedded windows ["app"] in
  buildPathsToFiles c "templates/app" = buildPathsToFiles c "templates\app"
  ∧ subDirFiles c "app" = buildPathsToFiles c "templates\app".
Proof.
  intros c. destruct (discovery_absorbs_ToSlash c) as [A B].
  split; [exact (A eq_refl "templates\app") | exact (B "app")].
Defined.

(** ** More about building the registry *)

Section BuildMoreFacts.

Context `{Host}.

Import Bytes BytesFacts gostrings TrimFacts filepath FilepathFacts.

(** [validate] does not look at the registry. *)
Lemma validate_set_templates (c : Config) m :
  validate (set_templates m c)
  = (set_templates m (fst (validate c)), snd (validate c)).
Proof.
  destruct c as [dev ulf bp sds ext ue efs fm cb tm].
  unfold validate. simpl.
  destruct (decide (TrimSpace bp = "")); [reflexivity|].
  destruct ue; simpl.
  - destruct (decide (TrimSpace ext = "")); simpl;
      destruct (embed_isZero efs); reflexivity.
  - destruct (statNotExist (TrimSpace bp)); [reflexivity|].
    destruct (validateSubDirs (TrimSpace bp) sds) as [sds' err]. simpl.
    destruct err; [reflexivity|].
    destruct (decide (TrimSpace ext = "")); reflexivity.
Qed.

Lemma set_SubDirs_same (c : Config) m :
  set_SubDirs (SubDirs c) (set_templates m c) = set_templates m c.
Proof. now destruct c. Qed.

(** A validated configuration, with whatever registry, validates to
    itself. *)
Lemma validate_fixed (c cv : Config) m :
  validate c = (cv, None) →
  validate (set_templates m cv) = (set_templates m cv, None).
Proof.
  intros V.
  pose proof (validate_prefix c cv (SubDirs cv) [] m V
                (eq_sym (app_nil_r _))) as P.
  now rewrite set_SubDirs_same in P.
Qed.

(** After an accepting [validate], [Build] does not depend on the registry
    it finds. *)
Lemma Build_set_templates (c : Config) m :
  snd (validate c) = None → Build (set_templates m c) = Build c.
Proof.
  intros Hs. destruct (validate c) as [cv e] eqn:V. simpl in Hs. subst e.
  assert (Vm : validate (set_templates m c) = (set_templates m cv, None)).
  { rewrite validate_set_templates, V. reflexivity. }
  rewrite (Build_validated _ _ Vm), (Build_validated _ _ V).
  simpl. rewrite buildPathsToFiles_set_templates. reflexivity.
Qed.

(** [Build] changes nothing but what [validate] changes, and the
    registry. *)
Lemma Build_frame (c : Config) :
  let c' := fst (fst (Build c)) in
  Development c' = Development c ∧
  UseLocalFiles c' = UseLocalFiles c ∧
  UseEmbedded c' = UseEmbedded c ∧
  EmbeddedFS c' = EmbeddedFS c ∧
  FuncMap c' = FuncMap c ∧
  CacheBustingFilePairs c' = CacheBustingFilePairs c.
Proof.
  pose proof (validate_frame c) as F. simpl in F.
  unfold Build. destruct (validate c) as [cv e]. simpl in F.
  destruct F as (F1 & F2 & F3 & F4 & F5 & F6 & _).
  destruct e; [simpl; repeat split; assumption|].
  assert (L : ∀ c0 base l,
            c0 = set_templates (templates c0) cv →
            let c' := fst (fst (buildSubDirs c0 base l)) in
            Development c' = Development c ∧
            UseLocalFiles c' = UseLocalFiles c ∧
            UseEmbedded c' = UseEmbedded c ∧
            EmbeddedFS c' = EmbeddedFS c ∧
            FuncMap c' = FuncMap c ∧
            CacheBustingFilePairs c' = CacheBustingFilePairs c).
  { intros c0 base l Hc0.
    destruct (buildSubDirs c0 base l) as [[c' lg] er] eqn:B.
    apply buildSubDirs_settings in B. simpl. rewrite B, Hc0. simpl.
    repeat split; assumption. }
  destruct (buildPathsToFiles _ _) as [base|];
    [|simpl; repeat split; assumption].
  destruct (Nat.ltb 0 (List.length base)); [|now apply L].
  destruct (ParseFiles _ base);
    [now apply L | simpl; repeat split; assumption].
Qed.

(** An accepted on-disk configuration has no empty subdirectory name. *)
Lemma validate_onDisk_no_empty (c cv : Config) :
  UseEmbedded c = false → validate c = (cv, None) → "" ∉ SubDirs cv.
Proof.
  intros Hdisk V. apply validate_inv in V as (_ & _ & _ & V).
  rewrite Hdisk in V. destruct V as [_ V].
  apply validateSubDirs_inv in V as [-> F]. intros Hin.
  apply list_elem_of_fmap in Hin as (p & Hp & Hpin).
  rewrite Forall_forall in F. destruct (F p Hpin) as [Hne _].
  destruct (normalized_fixed p Hne) as (_ & Hq & _). simpl in Hq. congruence.
Qed.

(** Everything a successful [Build] leaves behind. *)
Lemma Build_ok_facts (c c' : Config) (log : list string) :
  Build c = (c', log, None) →
  ∃ cv base,
    validate c = (cv, None) ∧
    c' = set_templates (templates c') cv ∧
    buildPathsToFiles c' (BasePath c') = Ok base ∧
    log = [] ∧
    (∀ k, k ∈ SubDirs c' → ∃ own, subDirFiles c' k = Ok own) ∧
    (∀ k own, k ∈ SubDirs c' → subDirFiles c' k = Ok own → own ≠ [] →
       ∃ t, ParseFiles (FuncMap c') (own ++ base) = Ok t ∧
            templates c' !! k = Some t) ∧
    (∀ k, (k ∈ SubDirs c' → subDirFiles c' k = Ok []) →
       (k ≠ "" ∨ base = [] → templates c' !! k = None) ∧
       (k = "" → base ≠ [] →
        ∃ t, ParseFiles (FuncMap c') base = Ok t ∧
             templates c' !! k = Some t)).
Proof.
  intros B.
  destruct (Build_ok_settings _ _ _ B) as (cv0 & V0 & Hc').
  apply Build_ok_inv in B as (cv & base & reg0 & V & Hbase & Hreg & L).
  assert (cv0 = cv) as -> by congruence.
  destruct (same_settings _ _ _ Hc') as (Sb & Sf & Sp & Sd & Sm).
  destruct (buildSubDirs_ok _ _ _ _ _ L) as (Hlog & A & I & U).
  exists cv, base. rewrite Sb, Sp, Sd, Sm.
  split; [exact V|]. split; [exact Hc'|]. split; [exact Hbase|].
  split; [exact Hlog|]. split; [|split].
  - intros k Hk. destruct (A k Hk) as [own Ho].
    rewrite subDirFiles_set_templates in Ho. rewrite Sf. eauto.
  - intros k own Hk Ho Hne. rewrite Sf in Ho.
    apply (I k own Hk); [|exact Hne]. now rewrite subDirFiles_set_templates.
  - intros k Hk.
    assert (E : templates c' !! k = reg0 !! k).
    { rewrite U; [reflexivity|]. intros Hin.
      rewrite subDirFiles_set_templates, <- Sf. now apply Hk. }
    rewrite E. destruct Hreg as [[-> ->]|(Hne & t & Hp & ->)].
    + split; [intros _; apply lookup_empty | intros _ N; contradiction].
    + split.
      * intros [Hk0|Hb]; [|contradiction].
        rewrite lookup_insert_ne by congruence. apply lookup_empty.
      * intros -> _. exists t. split; [exact Hp | apply lookup_insert_eq].
Qed.

(** The keys of the registry after a successful [Build], in either mode. *)
Lemma Build_ok_keys (c c' : Config) (log : list string) base :
  Build c = (c', log, None) →
  buildPathsToFiles c' (BasePath c') = Ok base →
  ∀ k, k ∈ dom (templates c') ↔
       (k = "" ∧ base ≠ []) ∨
       (k ∈ SubDirs c' ∧ ∃ own, subDirFiles c' k = Ok own ∧ own ≠ []).
Proof.
  intros B Hb.
  destruct (Build_ok_facts _ _ _ B) as (cv & base' & _ & _ & Hb' & _ & A & I & U).
  assert (base' = base) as -> by congruence.
  intros k. rewrite elem_of_dom.
  assert (D : (k ∈ SubDirs c' ∧ ∃ own, subDirFiles c' k = Ok own ∧ own ≠ [])
              ∨ (k ∈ SubDirs c' → subDirFiles c' k = Ok [])).
  { destruct (decide (k ∈ SubDirs c')) as [Hin|Hnin]; [|right; tauto].
    destruct (A k Hin) as [[|p own] Ho]; [right; auto|].
    left. split; [exact Hin|]. exists (p :: own). split; [exact Ho|discriminate]. }
  split.
  - intros Hk. destruct D as [D|D]; [now right|]. left.
    destruct (U k D) as [U1 U2].
    destruct (decide (k = "")) as [->|Hk0].
    + split; [reflexivity|]. intros ->.
      rewrite U1 in Hk by auto. destruct Hk; discriminate.
    + rewrite U1 in Hk by auto. destruct Hk; discriminate.
  - intros [[-> Hne]|(Hin & own & Ho & Hne)].
    + destruct D as [(Hin & own & Ho & Hown)|D].
      * destruct (I "" own Hin Ho Hown) as (t & _ & ->). eauto.
      * destruct (U "" D) as [_ U2].
        destruct (U2 eq_refl Hne) as (t & _ & ->). eauto.
    + destruct (I k own Hin Ho Hne) as (t & _ & ->). eauto.
Qed.

End BuildMoreFacts.

Section BuildMore.

Context `{Host}.

Import Bytes BytesFacts gostrings TrimFacts filepath FilepathFacts.

(** A [Build] that fails validation returns the error of [validate] at
    once: nothing is listed, parsed or logged, and the registry is not
    reset, so the groups of an earlier [Build] stay in place. *)
Theorem Build_rejected_keeps_registry (c cv : Config) (e : error) :
  validate c = (cv, Some e) →
  Build c = (cv, [], Some e) ∧ templates cv = templates c.
Proof.
  intros V. split.
  - unfold Build. now rewrite V.
  - pose proof (validate_frame c) as F. simpl in F. rewrite V in F.
    simpl in F. tauto.
Qed.

(** Once validation passes, the outcome of [Build] (configuration, log and
    error) does not depend on the registry it finds: whatever an earlier
    [Build] stored is discarded, also when this [Build] fails later on. *)
Theorem Build_ignores_previous_registry (c : Config)
  (m : gmap string Template) :
  snd (validate c) = None →
  Build (set_templates m c) = Build c.
Proof. apply Build_set_templates. Qed.

(** [Build] is idempotent: building again the configuration that a
    successful [Build] left behind succeeds and leaves it as it is. *)
Theorem Build_idempotent (c c' : Config) (log : list string) :
  Build c = (c', log, None) → Build c' = (c', log, None).
Proof.
  intros B.
  destruct (Build_ok_settings _ _ _ B) as (cv & V & Hc').
  assert (Vcv : validate cv = (cv, None)).
  { pose proof (validate_fixed c cv (templates cv) V) as P.
    now replace (set_templates (templates cv) cv) with cv in P
      by now destruct cv. }
  assert (E : Build c' = Build cv).
  { rewrite Hc'. apply Build_set_templates. now rewrite Vcv. }
  rewrite E.
  apply Build_ok_inv in B as (cv' & base & reg0 & V' & Hbase & Hreg & L).
  assert (cv' = cv) as -> by congruence.
  now rewrite (Build_loop cv cv base reg0 Vcv Hbase Hreg).
Qed.

(** Whatever its outcome, [Build] leaves the settings that are handed to
    the templates and to the engine as they were: the development and
    local-files flags, the cache-busting pairs, the function map, and the
    source mode with its embedded file system. *)
Theorem Build_keeps_flags (c : Config) :
  let c' := fst (fst (Build c)) in
  Development c' = Development c ∧
  UseLocalFiles c' = UseLocalFiles c ∧
  UseEmbedded c' = UseEmbedded c ∧
  EmbeddedFS c' = EmbeddedFS c ∧
  FuncMap c' = FuncMap c ∧
  CacheBustingFilePairs c' = CacheBustingFilePairs c.
Proof. exact (Build_frame c). Qed.

(** The package-level setters: what [Development], [UseLocalFiles] and
    [CacheBustingFilePairs] stored in the package-level configuration
    before the package-level [Build] is what [Show] hands to the templates
    after it, whether [Build] succeeded or not; the two flag setters
    commute; and [DefaultConfig] afterwards resets all three. *)
Theorem pkg_flags_reach_templates (config : Config) (d u : bool)
  (p : gmap string string) :
  let config1 :=
    pkg_CacheBustingFilePairs p
      (pkg_UseLocalFiles u (pkg_Development d config)) in
  let config2 := fst (fst (pkg_Build config1)) in
  (∀ x, showData (GetConfig config2) x = mkShowData d u p x) ∧
  pkg_Development d (pkg_UseLocalFiles u config)
  = pkg_UseLocalFiles u (pkg_Development d config) ∧
  (∀ x, showData (DefaultConfig config2) x = mkShowData false false ∅ x).
Proof.
  intros config1 config2. split; [|split; reflexivity].
  intros x. unfold showData, GetConfig, config2, pkg_Build.
  destruct (Build_frame config1) as (F1 & F2 & _ & _ & _ & F6).
  simpl in F1, F2, F6. now rewrite F1, F2, F6.
Qed.

(** The registry keys of an embedded configuration: after a successful
    [Build] the subdirectory names are as they were given, and the keys are
    exactly the empty string, if the base directory has a file with the
    extension, and each subdirectory name whose directory has one. *)
Theorem Build_embedded_keys (c c' : Config) (log : list string) :
  UseEmbedded c = true →
  Build c = (c', log, None) →
  SubDirs c' = SubDirs c ∧
  ∃ base,
    buildPathsToFiles c' (BasePath c') = Ok base ∧
    ∀ k, k ∈ dom (templates c') ↔
         (k = "" ∧ base ≠ []) ∨
         (k ∈ SubDirs c' ∧ ∃ own, subDirFiles c' k = Ok own ∧ own ≠ []).
Proof.
  intros Hemb B.
  destruct (Build_ok_facts _ _ _ B) as (cv & base & V & Hc' & Hb & _).
  split.
  - destruct (same_settings _ _ _ Hc') as (_ & _ & _ & -> & _).
    apply validate_inv in V as (_ & _ & _ & V). rewrite Hemb in V. tauto.
  - exists base. split; [exact Hb|]. now apply (Build_ok_keys c c' log).
Qed.

(** The base group: after a successful [Build] of a configuration none of
    whose subdirectory names is empty (an on-disk configuration never has
    one), the key [""] is absent when the base directory has no file with
    the extension, and otherwise holds the group parsed from the base files
    alone; [Show] with the empty subdirectory name renders from that
    group. *)
Theorem Build_base_group (c c' : Config) (log : list string) :
  Build c = (c', log, None) →
  UseEmbedded c = false ∨ "" ∉ SubDirs c' →
  ∃ base,
    buildPathsToFiles c' (BasePath c') = Ok base ∧
    (base = [] → templates c' !! "" = None) ∧
    (base ≠ [] →
     ∃ t, ParseFiles (FuncMap c') base = Ok t ∧
          templates c' !! "" = Some t ∧
          ∀ w templateName injectedData,
            Show c' w "" templateName injectedData
            = reportExecution w
                (ExecuteTemplate t (nameWithExtension c' templateName)
                   (showData c' injectedData))).
Proof.
  intros B Hno.
  destruct (Build_ok_facts _ _ _ B)
    as (cv & base & V & Hc' & Hb & _ & _ & _ & U).
  assert (N : "" ∉ SubDirs c').
  { destruct Hno as [Hdisk|N]; [|exact N].
    destruct (same_settings _ _ _ Hc') as (_ & _ & _ & -> & _).
    now apply (validate_onDisk_no_empty c). }
  destruct (U "") as [U1 U2]; [intros; contradiction|].
  exists base. split; [exact Hb|]. split; [auto|].
  intros Hne. destruct (U2 eq_refl Hne) as (t & Hp & Ht).
  exists t. split; [exact Hp|]. split; [exact Ht|].
  intros w templateName injectedData. unfold Show. now rewrite Ht.
Qed.

(** When the base directory and every subdirectory of an on-disk
    configuration have a file with the extension, and no subdirectory is
    named twice, a successful [Build] leaves one group for each
    subdirectory plus one for the base. *)
Theorem Build_registry_size (c c' : Config) (log : list string)
  (base : list string) :
  UseEmbedded c = false →
  Build c = (c', log, None) →
  buildPathsToFiles c' (BasePath c') = Ok base → base ≠ [] →
  (∀ k, k ∈ SubDirs c' → subDirFiles c' k ≠ Ok []) →
  NoDup (SubDirs c') →
  size (templates c') = S (List.length (SubDirs c')).
Proof.
  intros Hdisk B Hb Hne Hall Hnd.
  destruct (Build_ok_facts _ _ _ B) as (cv & base' & V & Hc' & _ & _ & A & _).
  assert (N : "" ∉ SubDirs c').
  { destruct (same_settings _ _ _ Hc') as (_ & _ & _ & -> & _).
    now apply (validate_onDisk_no_empty c). }
  assert (D : dom (templates c') = {[""]} ∪ list_to_set (SubDirs c')).
  { apply set_eq. intros k. rewrite (Build_ok_keys c c' log base B Hb k).
    rewrite elem_of_union, elem_of_singleton, elem_of_list_to_set.
    split.
    - intros [[-> _]|[Hin _]]; auto.
    - intros [->|Hin]; [left; auto|]. right. split; [exact Hin|].
      destruct (A k Hin) as [[|p own] Ho]; [now apply Hall in Ho|].
      exists (p :: own). split; [exact Ho | discriminate]. }
  rewrite <- size_dom, D, size_union, size_singleton, size_list_to_set;
    [reflexivity | exact Hnd |].
  intros k Hk1 Hk2. apply elem_of_singleton in Hk1. subst k.
  apply elem_of_list_to_set in Hk2. contradiction.
Qed.

End BuildMore.

(** ** More about rendering *)

Section ShowMore.

Context `{Host}.

Import Bytes BytesFacts gostrings filepath FilepathFacts.

(** After a successful [Build] of an on-disk configuration, [Show] for a
    configured subdirectory that has no file with the extension reports
    status 500: the subdirectory has no group, and no other group is
    rendered in its place. *)
Theorem Show_empty_subdirectory (c c' : Config) (log : list string)
  (subdir : string) :
  UseEmbedded c = false →
  Build c = (c', log, None) →
  subdir ∈ SubDirs c' → subDirFiles c' subdir = Ok [] →
  ∀ w templateName injectedData,
    Show c' w subdir templateName injectedData
    = (w ++ [http_Error ("templates.Show: invalid subdirectory '" +:+ subdir
                           +:+ "'") 500%Z],
       []).
Proof.
  intros Hdisk B Hin Hempty w templateName injectedData.
  destruct (Build_ok_facts _ _ _ B)
    as (cv & base & V & Hc' & _ & _ & _ & _ & U).
  destruct (U subdir) as [U1 _]; [auto|].
  assert (Hk : subdir ≠ "").
  { intros ->. destruct (same_settings _ _ _ Hc') as (_ & _ & _ & Sd & _).
    rewrite Sd in Hin. now apply (validate_onDisk_no_empty c cv). }
  unfold Show. rewrite U1 by auto. reflexivity.
Qed.

(** The three outcomes of [Show].  A missing group: status 500 and no log
    line.  A successful execution: the output of the engine and nothing
    else, neither an [http.Error] nor a log line.  A failed execution: the
    output written so far, then status 404, and one log line.  In every
    case [Show] only appends to what the writer had received. *)
Theorem Show_outcomes (c : Config) (w : ResponseWriter)
  (subdir templateName : string) (injectedData : Any) :
  let out := Show c w subdir templateName injectedData in
  (templates c !! subdir = None ∧
   ∃ msg, out = (w ++ [http_Error msg 500%Z], []))
  ∨
  (∃ t chunks,
     templates c !! subdir = Some t ∧
     ExecuteTemplate t (nameWithExtension c templateName)
       (showData c injectedData) = (chunks, None) ∧
     out = (w ++ map Written chunks, []))
  ∨
  (∃ t chunks err,
     templates c !! subdir = Some t ∧
     ExecuteTemplate t (nameWithExtension c templateName)
       (showData c injectedData) = (chunks, Some err) ∧
     out = (w ++ map Written chunks ++ [http_Error (error_Error err) 404%Z],
            ["templates.Show: error during execute " +:+ error_Error err])).
Proof.
  unfold Show. destruct (templates c !! subdir) as [t|]; [|left; eauto].
  right.
  destruct (ExecuteTemplate t (nameWithExtension c templateName)
              (showData c injectedData)) as [chunks [err|]] eqn:E; simpl.
  - right. exists t, chunks, err. rewrite <- app_assoc. auto.
  - left. exists t, chunks. auto.
Qed.

(** The extension may be left out: when the configured extension contains
    no path separator, [Show] for a template name without a dot in its
    final element does exactly what it does for that name with
    ["." + Extension] appended. *)
Theorem Show_extension_may_be_omitted (c : Config) (w : ResponseWriter)
  (subdir templateName : string) (injectedData : Any) :
  Forall (λ ch, IsPathSeparator goos ch = false) (of_string (Extension c)) →
  ¬ dotSuffixed goos templateName →
  Show c w subdir templateName injectedData
  = Show c w subdir (templateName +:+ "." +:+ Extension c) injectedData.
Proof.
  intros Hext Hno.
  assert (E1 : nameWithExtension c templateName
               = templateName +:+ "." +:+ Extension c).
  { unfold nameWithExtension. destruct (decide _) as [_|NE]; [reflexivity|].
    exfalso. apply NE. now apply Ext_empty_iff. }
  assert (E2 : nameWithExtension c (templateName +:+ "." +:+ Extension c)
               = templateName +:+ "." +:+ Extension c).
  { unfold nameWithExtension. destruct (decide _) as [E|_]; [|reflexivity].
    exfalso. apply Ext_empty_iff in E. apply E.
    exists (of_string templateName), (of_string (Extension c)).
    split; [|exact Hext]. now rewrite of_string_append. }
  unfold Show. now rewrite E1, E2.
Qed.

End ShowMore.

(** ** More about the helper functions *)

Module FuncMoreFacts.

Import Bytes BytesFacts gostrings templatefuncs.

Lemma length_of_string (s : string) :
  List.length (of_string s) = String.length s.
Proof. induction s as [|a s IH]; simpl; [reflexivity | now rewrite IH]. Qed.

Lemma hasPrefix_iff (w s : list ascii) :
  hasPrefix w s = true ↔ ∃ suf, s = w ++ suf.
Proof.
  revert s. induction w as [|a w IH]; intros s; simpl.
  - split; [eauto | reflexivity].
  - destruct s as [|b s].
    + split; [discriminate | intros [suf E]; discriminate].
    + rewrite andb_true_iff, Ascii.eqb_eq, IH. split.
      * intros [-> [suf ->]]. eauto.
      * intros [suf [= -> ->]]. eauto.
Qed.

(** The search finds the first place where [w] starts, or none. *)
Lemma indexFrom_spec (w s : list ascii) (i : Z) :
  (indexFrom w s i = (-1)%Z ∧ ∀ n, hasPrefix w (drop n s) = false)
  ∨
  (∃ n : nat,
     indexFrom w s i = (i + Z.of_nat n)%Z ∧ n ≤ List.length s ∧
     hasPrefix w (drop n s) = true ∧
     ∀ m, m < n → hasPrefix w (drop m s) = false).
Proof.
  revert i. induction s as [|a s IH]; intros i.
  - simpl. destruct (hasPrefix w []) eqn:E.
    + right. exists 0. rewrite Z.add_0_r. repeat split; auto. lia.
    + left. split; [reflexivity|]. intros n. now rewrite drop_nil.
  - simpl indexFrom. destruct (hasPrefix w (a :: s)) eqn:E.
    + right. exists 0. rewrite Z.add_0_r. repeat split; auto; lia.
    + destruct (IH (i + 1)%Z) as [[E1 N]|(n & E1 & Hn & P & M)].
      * left. split; [exact E1|]. intros [|n]; [exact E | apply N].
      * right. exists (S n). repeat split.
        -- rewrite E1. lia.
        -- simpl. lia.
        -- exact P.
        -- intros [|m] Hm; [exact E | apply M; lia].
Qed.







End FuncMoreFacts.

(** [indexOf] gives the position of the first occurrence of the needle in
    the haystack, counted in bytes from 0, and [-1] exactly when the needle
    does not occur. *)
Theorem FuncIndexOf_first_occurrence (needle haystack : string) :
  let i := templatefuncs.FuncIndexOf needle haystack in
  (i = (-1)%Z ∧ ¬ ∃ pre suf, haystack = pre +:+ needle +:+ suf)
  ∨
  (∃ pre suf,
     haystack = pre +:+ needle +:+ suf ∧
     i = Z.of_nat (String.length pre) ∧
     ∀ pre' suf', haystack = pre' +:+ needle +:+ suf' →
                  String.length pre ≤ String.length pre').
Proof.
  unfold templatefuncs.FuncIndexOf, gostrings.Index.
  set (w := Bytes.of_string needle). set (s := Bytes.of_string haystack).
  assert (Occ : ∀ pre suf, haystack = pre +:+ needle +:+ suf →
                  Bytes.hasPrefix w (drop (String.length pre) s) = true).
  { intros pre suf ->. subst s w.
    rewrite !BytesFacts.of_string_append.
    rewrite <- FuncMoreFacts.length_of_string, drop_app_length.
    apply FuncMoreFacts.hasPrefix_iff. eauto. }
  destruct (FuncMoreFacts.indexFrom_spec w s 0)
    as [[E N]|(n & E & Hn & P & M)].
  - left. split; [exact E|]. intros (pre & suf & Hocc).
    apply Occ in Hocc. now rewrite N in Hocc.
  - right. apply FuncMoreFacts.hasPrefix_iff in P as [suf P].
    exists (Bytes.to_string (take n s)), (Bytes.to_string suf).
    assert (L : String.length (Bytes.to_string (take n s)) = n).
    { rewrite <- FuncMoreFacts.length_of_string, BytesFacts.of_to_string.
      rewrite length_take. lia. }
    split; [|split].
    + apply BytesFacts.of_string_inj.
      rewrite !BytesFacts.of_string_append, !BytesFacts.of_to_string.
      fold w s. rewrite <- P. symmetry. apply take_drop.
    + rewrite E, L. lia.
    + intros pre' suf' Hocc. rewrite L. apply Occ in Hocc.
      destruct (Nat.le_gt_cases n (String.length pre')) as [|Hlt];
        [assumption|].
      rewrite (M _ Hlt) in Hocc. discriminate.
Qed.

(** [addInt] is addition with the wrap-around of [int]: the result lies in
    the range of [int], differs from the exact sum by a multiple of
    [2 ^ intSize], and is the exact sum exactly when that lies in the
    range; the order of the arguments does not matter. *)
Theorem FuncAddInt_wraps (intSize x y : Z) :
  (0 < intSize)%Z →
  let z := templatefuncs.FuncAddInt intSize x y in
  (- 2 ^ (intSize - 1) <= z < 2 ^ (intSize - 1))%Z ∧
  ((z - (x + y)) mod 2 ^ intSize = 0)%Z ∧
  (z = (x + y)%Z ↔
   (- 2 ^ (intSize - 1) <= x + y < 2 ^ (intSize - 1))%Z) ∧
  z = templatefuncs.FuncAddInt intSize y x.
Proof.
  intros Hs z.
  assert (E : (2 ^ intSize = 2 * 2 ^ (intSize - 1))%Z).
  { rewrite <- Z.pow_succ_r by lia. f_equal. lia. }
  assert (Hh : (0 < 2 ^ (intSize - 1))%Z) by (apply Z.pow_pos_nonneg; lia).
  assert (R : (- 2 ^ (intSize - 1) <= z < 2 ^ (intSize - 1))%Z).
  { subst z. unfold templatefuncs.FuncAddInt, templatefuncs.wrapInt.
    pose proof (Z.mod_pos_bound (x + y + 2 ^ (intSize - 1)) (2 ^ intSize)).
    lia. }
  split; [exact R|]. split; [|split].
  - subst z. unfold templatefuncs.FuncAddInt, templatefuncs.wrapInt.
    pose proof (Z.div_mod (x + y + 2 ^ (intSize - 1)) (2 ^ intSize)) as D.
    replace ((x + y + 2 ^ (intSize - 1)) mod 2 ^ intSize
             - 2 ^ (intSize - 1) - (x + y))%Z
      with ((- ((x + y + 2 ^ (intSize - 1)) / 2 ^ intSize)) * 2 ^ intSize)%Z
      by lia.
    apply Z.mod_mul. lia.
  - split.
    + intros <-. exact R.
    + intros Hr. now apply FuncFacts.FuncAddInt_small.
  - subst z. unfold templatefuncs.FuncAddInt. now rewrite Z.add_comm.
Qed.


(** ** Examples for the further properties *)

Lemma Build_rejected_keeps_registry_witness :
  let built := fst (fst (Build (Example.onDisk posix ["app"]))) in
  let c := set_BasePath "  " built in
  Build c = (set_BasePath "" built, [], Some ErrBasePathNotSet) ∧
  templates (set_BasePath "" built) = templates c.
Proof.
  intros built c.
  apply (Build_rejected_keeps_registry c (set_BasePath "" built)).
  vm_compute. reflexivity.
Defined.

Lemma Build_ignores_previous_registry_witness :
  let c := Example.onDisk posix ["app"; "help"] in
  Build (set_templates {[ "stale" := ["old.html"] ]} c) = Build c.
Proof.
  intros c. apply (Build_ignores_previous_registry c).
  vm_compute. reflexivity.
Defined.

Lemma Build_idempotent_witness :
  let c := Example.onDisk windows [" app/partials "; "app"] in
  let c' := fst (fst (Build c)) in
  SubDirs c' = ["app\partials"; "app"] ∧ Build c' = (c', [], None).
Proof.
  intros c c'. split; [vm_compute; reflexivity|].
  apply (Build_idempotent c). vm_compute. reflexivity.
Defined.

Lemma Build_embedded_keys_witness :
  let c := Example.embedded windows ["app"; "help"] in
  let c' := fst (fst (Build c)) in
  SubDirs c' = ["app"; "help"] ∧
  "app" ∈ dom (templates c') ∧ "help" ∉ dom (templates c').
Proof.
  intros c c'.
  assert (B : Build c = (c', [], None)) by (vm_compute; reflexivity).
  destruct (Build_embedded_keys c c' [] eq_refl B) as (S & base & Hb & K).
  split; [exact S|]. split.
  - apply K. right. split; [rewrite S; repeat constructor|].
    exists ["templates/app/index.html"; "templates/app/users.html"].
    split; [vm_compute; reflexivity | discriminate].
  - intros Hin. apply K in Hin as [[E _]|[_ (own & Ho & Hne)]];
      [discriminate E|].
    vm_compute in Ho. injection Ho as <-. now apply Hne.
Defined.

Lemma Build_base_group_witness :
  let c := Example.onDisk posix ["app"] in
  let c' := fst (fst (Build c)) in
  ∃ t, templates c' !! "" = Some t ∧
       ParseFiles (FuncMap c')
         ["templates/footer.html"; "templates/header.html"] = Ok t ∧
       Show c' [] "" "header" tt
       = reportExecution []
           (ExecuteTemplate t (nameWithExtension c' "header")
              (showData c' tt)).
Proof.
  intros c c'.
  assert (B : Build c = (c', [], None)) by (vm_compute; reflexivity).
  destruct (Build_base_group c c' [] B (or_introl eq_refl))
    as (base & Hb & _ & G).
  assert (base = ["templates/footer.html"; "templates/header.html"]) as ->.
  { vm_compute in Hb. now injection Hb. }
  destruct G as (t & Hp & Ht & S); [discriminate|].
  exists t. split; [exact Ht|]. split; [exact Hp | apply S].
Defined.

Lemma Build_registry_size_witness :
  let c := Example.onDisk posix ["app"] in
  let c' := fst (fst (Build c)) in
  size (templates c') = 2.
Proof.
  intros c c'.
  apply (Build_registry_size c c' []
           ["templates/footer.html"; "templates/header.html"]).
  - reflexivity.
  - vm_compute. reflexivity.
  - vm_compute. reflexivity.
  - discriminate.
  - intros k Hk.
    assert (SubDirs c' = ["app"]) as E by (vm_compute; reflexivity).
    rewrite E in Hk. apply list_elem_of_singleton in Hk. subst k.
    vm_compute. discriminate.
  - assert (SubDirs c' = ["app"]) as -> by (vm_compute; reflexivity).
    apply NoDup_singleton.
Defined.

Lemma Show_empty_subdirectory_witness :
  let c := Example.onDisk posix ["app"; "help"] in
  let c' := fst (fst (Build c)) in
  Show c' [] "help" "index" tt
  = ([http_Error "templates.Show: invalid subdirectory 'help'" 500%Z], []).
Proof.
  intros c c'.
  apply (Show_empty_subdirectory c c' [] "help").
  - reflexivity.
  - vm_compute. reflexivity.
  - assert (SubDirs c' = ["app"; "help"]) as -> by (vm_compute; reflexivity).
    repeat constructor.
  - vm_compute. reflexivity.
Defined.

Lemma Show_extension_may_be_omitted_witness :
  let c' := fst (fst (Build (Example.onDisk posix ["app"]))) in
  Show c' [] "app" "index" tt = Show c' [] "app" "index.html" tt.
Proof.
  intros c'.
  apply (Show_extension_may_be_omitted c' [] "app" "index" tt).
  - vm_compute. repeat constructor.
  - apply FilepathFacts.Ext_empty_iff. vm_compute. reflexivity.
Defined.

Lemma FuncAddInt_wraps_witness :
  templatefuncs.FuncAddInt 64 9223372036854775807 1
  = (-9223372036854775808)%Z ∧
  (- 2 ^ (64 - 1)
   <= templatefuncs.FuncAddInt 64 9223372036854775807 1 < 2 ^ (64 - 1))%Z.
Proof.
  split; [vm_compute; reflexivity|].
  apply (FuncAddInt_wraps 64 9223372036854775807 1). reflexivity.
Defined.

(** The cases of the package's own tests. *)
Lemma FuncIndexOf_tests :
  templatefuncs.FuncIndexOf "d" "asdfghjkl" = 2%Z ∧
  templatefuncs.FuncIndexOf "p" "asdfghjkl" = (-1)%Z ∧
  templatefuncs.FuncIndexOf "" "asdfghjkl" = 0%Z.
Proof. repeat split. Qed.

(** ** What [Build] logs *)

Section BuildLog.

Context `{Host}.

Import Bytes BytesFacts gostrings filepath.



End BuildLog.

